(** * server/models/user.py: the account and option models

    A shallow embedding of [UserOptions] and [User] as they are written in
    [server/models/user.py], together with the parts of Python, peewee,
    playhouse and bcrypt that the two classes call.

    - A Python [str] is a sequence of code points, [bytes] a list of bytes;
      [str.encode("utf8")] and [bytes.decode("utf8")] are the strict codecs
      and raise on what they cannot convert.
    - A peewee model instance is its [__data__] dictionary and its [_dirty]
      set; a method threads the receiver and the world (the two tables and
      the operating system's entropy) and either returns or raises.
    - bcrypt is an interface; what is proved about passwords is proved for
      every implementation of it that keeps the stated contract. *)

From Stdlib Require Import ZArith NArith List String Lia Zify.
From Stdlib.Strings Require Import Byte Ascii.
From Stdlib.Floats Require Import SpecFloat.
From Stdlib Require Import DecimalString.
From stdpp Require Import base option list gmap strings.


(** ** Python values, exceptions, effects *)

(** A [str]: its code points. *)
Definition pystr := list N.

(** A [bytes] object. *)
Definition pybytes := list byte.

(** The values a column of the two models can hold in memory. A float is
    kept as its IEEE-754 value in the Standard Library's specification
    format. *)
Inductive value :=
| VNone
| VBool (b : bool)
| VInt (z : Z)
| VFloat (f : spec_float)
| VStr (s : pystr).

(** The exceptions that the modelled code can raise. *)
Inductive exn :=
| UnicodeEncodeError
| UnicodeDecodeError
| AttributeError
| IntegrityError
| ValueError
| TypeError
| OverflowError.

Inductive outcome (A : Type) :=
| Ok (a : A)
| Raise (e : exn).
Arguments Ok {A} a.
Arguments Raise {A} e.

(** A computation over a state [S] that returns or raises. An exception
    keeps the state reached so far, as in Python. *)
Definition Eff (S A : Type) : Type := S -> outcome A * S.

Definition eff_ret {S A} (a : A) : Eff S A := fun s => (Ok a, s).

Definition eff_bind {S A B} (f : A -> Eff S B) (m : Eff S A) : Eff S B :=
  fun s =>
    match m s with
    | (Ok a, s') => f a s'
    | (Raise e, s') => (Raise e, s')
    end.

#[global] Instance Eff_ret {S} : MRet (Eff S) := @eff_ret S.
#[global] Instance Eff_bind {S} : MBind (Eff S) := @eff_bind S.

Definition raise {S A} (e : exn) : Eff S A := fun s => (Raise e, s).

(** A pure step that may raise. *)
Definition lift {S A} (o : outcome A) : Eff S A := fun s => (o, s).

Definition get_state {S} : Eff S S := fun s => (Ok s, s).
Definition put_state {S} (s : S) : Eff S unit := fun _ => (Ok tt, s).

(** ** The utf-8 codec *)

Module Utf8.

Definition byte_of (n : N) : byte := default x00 (Byte.of_N n).

(** The bytes of one code point; [None] for a surrogate, which the strict
    encoder refuses, and for a number above U+10FFFF, which no [str]
    holds. *)
Definition encode_char (c : N) : option pybytes :=
  if (c <? 0x80)%N then Some [byte_of c]
  else if (c <? 0x800)%N then
    Some [byte_of (N.lor 0xC0 (N.shiftr c 6));
          byte_of (N.lor 0x80 (N.land c 0x3F))]
  else if (c <? 0x10000)%N then
    if ((0xD800 <=? c) && (c <=? 0xDFFF))%N then None
    else
      Some [byte_of (N.lor 0xE0 (N.shiftr c 12));
            byte_of (N.lor 0x80 (N.land (N.shiftr c 6) 0x3F));
            byte_of (N.lor 0x80 (N.land c 0x3F))]
  else if (c <? 0x110000)%N then
    Some [byte_of (N.lor 0xF0 (N.shiftr c 18));
          byte_of (N.lor 0x80 (N.land (N.shiftr c 12) 0x3F));
          byte_of (N.lor 0x80 (N.land (N.shiftr c 6) 0x3F));
          byte_of (N.lor 0x80 (N.land c 0x3F))]
  else None.

(** [s.encode("utf8")] *)
Fixpoint encode (s : pystr) : outcome pybytes :=
  match s with
  | [] => Ok []
  | c :: s' =>
    match encode_char c with
    | None => Raise UnicodeEncodeError
    | Some bs =>
      match encode s' with
      | Ok r => Ok (bs ++ r)
      | Raise e => Raise e
      end
    end
  end.

(** A continuation byte, 10xxxxxx. *)
Definition cont (b : byte) : bool :=
  ((0x80 <=? Byte.to_N b) && (Byte.to_N b <? 0xC0))%N.

(** The six payload bits of a continuation byte. *)
Definition low6 (b : byte) : N := N.land (Byte.to_N b) 0x3F.

Definition in_range (lo hi : N) (b : byte) : bool :=
  ((lo <=? Byte.to_N b) && (Byte.to_N b <=? hi))%N.

Definition push (c : N) (r : outcome pystr) : outcome pystr :=
  match r with
  | Ok s => Ok (c :: s)
  | Raise e => Raise e
  end.

(** [bs.decode("utf8")]: the strict decoder, which refuses overlong
    forms, surrogates, truncated sequences and values above U+10FFFF. *)
Fixpoint decode (bs : pybytes) : outcome pystr :=
  match bs with
  | [] => Ok []
  | b0 :: r0 =>
    let n0 := Byte.to_N b0 in
    if (n0 <? 0x80)%N then push n0 (decode r0)
    else if (n0 <? 0xC2)%N then Raise UnicodeDecodeError
    else if (n0 <? 0xE0)%N then
      match r0 with
      | b1 :: r1 =>
        if cont b1
        then push (N.lor (N.shiftl (N.land n0 0x1F) 6) (low6 b1)) (decode r1)
        else Raise UnicodeDecodeError
      | _ => Raise UnicodeDecodeError
      end
    else if (n0 <? 0xF0)%N then
      match r0 with
      | b1 :: b2 :: r2 =>
        if (if (n0 =? 0xE0)%N then in_range 0xA0 0xBF b1
            else if (n0 =? 0xED)%N then in_range 0x80 0x9F b1
            else cont b1) && cont b2
        then push (N.lor (N.shiftl (N.land n0 0x0F) 12)
                    (N.lor (N.shiftl (low6 b1) 6) (low6 b2))) (decode r2)
        else Raise UnicodeDecodeError
      | _ => Raise UnicodeDecodeError
      end
    else if (n0 <? 0xF5)%N then
      match r0 with
      | b1 :: b2 :: b3 :: r3 =>
        if (if (n0 =? 0xF0)%N then in_range 0x90 0xBF b1
            else if (n0 =? 0xF4)%N then in_range 0x80 0x8F b1
            else cont b1) && cont b2 && cont b3
        then push (N.lor (N.shiftl (N.land n0 0x07) 18)
                    (N.lor (N.shiftl (low6 b1) 12)
                      (N.lor (N.shiftl (low6 b2) 6) (low6 b3)))) (decode r3)
        else Raise UnicodeDecodeError
      | _ => Raise UnicodeDecodeError
      end
    else Raise UnicodeDecodeError
  end.

(** A [str] literal of ASCII characters. *)
Definition str (s : string) : pystr :=
  map (fun a => N_of_ascii a) (list_ascii_of_string s).

End Utf8.

(** ** Builtins of Python *)

Module Python.

(** The conversions between text and numbers rest on the Unicode tables
    and on the float printer, and are taken as given: [float_str f] is
    [str(f)], [int_of_str s] is [int(s)] and [float_of_str s] is
    [float(s)], with None where the call raises ValueError. *)
Record builtins := {
  float_str : spec_float -> pystr;
  int_of_str : pystr -> option Z;
  float_of_str : pystr -> option spec_float
}.

(** [str(v)], which is also [format(v, "")] as an f-string applies it to a
    replacement field: a [str] is itself; None, the booleans and the
    integers are written as Python writes them; the digits of a float are
    left to [float_str]. *)
Definition format_value (float_str : spec_float -> pystr) (v : value)
  : pystr :=
  match v with
  | VNone => Utf8.str "None"
  | VBool true => Utf8.str "True"
  | VBool false => Utf8.str "False"
  | VInt z => Utf8.str (NilZero.string_of_int (Z.to_int z))
  | VFloat f => float_str f
  | VStr s => s
  end.

(** [bool(v)] *)
Definition truth (v : value) : bool :=
  match v with
  | VNone => false
  | VBool b => b
  | VInt z => negb (z =? 0)%Z
  | VFloat (S754_zero _) => false
  | VFloat _ => true
  | VStr [] => false
  | VStr _ => true
  end.

(** [int(v)]: a float is cut towards zero; a NaN has no integer
    (ValueError) and an infinity is too large (OverflowError). *)
Definition to_int (py : builtins) (v : value) : outcome Z :=
  match v with
  | VNone => Raise TypeError
  | VBool b => Ok (if b then 1 else 0)%Z
  | VInt z => Ok z
  | VFloat (S754_zero _) => Ok 0%Z
  | VFloat (S754_infinity _) => Raise OverflowError
  | VFloat S754_nan => Raise ValueError
  | VFloat (S754_finite sign m e) =>
    let magnitude :=
      (if 0 <=? e then Z.pos m * 2 ^ e else Z.pos m / 2 ^ (- e))%Z in
    Ok (if sign then - magnitude else magnitude)%Z
  | VStr s =>
    match int_of_str py s with
    | Some z => Ok z
    | None => Raise ValueError
    end
  end.

(** [float(v)]: an integer is rounded to the nearest double, ties to
    even, and is too large (OverflowError) when that is no finite
    double. *)
Definition to_float (py : builtins) (v : value) : outcome spec_float :=
  match v with
  | VNone => Raise TypeError
  | VBool b => Ok (binary_normalize 53 1024 (if b then 1 else 0) 0 false)
  | VInt z =>
    match binary_normalize 53 1024 z 0 false with
    | S754_infinity _ => Raise OverflowError
    | f => Ok f
    end
  | VFloat f => Ok f
  | VStr s =>
    match float_of_str py s with
    | Some f => Ok f
    | None => Raise ValueError
    end
  end.

(** [str.lower] on the first 256 code points: the letters A to Z and the
    capital letters of Latin-1 (U+00C0 to U+00DE without the
    multiplication sign) move up by 32, every other character stays. *)
Definition lower_latin1_char (c : N) : N :=
  if ((0x41 <=? c) && (c <=? 0x5A) ||
      (0xC0 <=? c) && (c <=? 0xDE) && negb (c =? 0xD7))%N
  then (c + 0x20)%N else c.

(** On a [str] of such code points this is [str.lower]; beyond them it
    leaves the characters alone, which [str.lower] does not. It is the
    instance of [str.lower] on which examples are run. *)
Definition latin1_lower (s : pystr) : pystr := map lower_latin1_char s.

(** What is used of [str.lower]: its value on the first 256 code points,
    and that it maps no character from or to a surrogate, so that the
    result encodes to utf-8 exactly when the [str] does. *)
Record lower_contract (lower : pystr -> pystr) : Prop := {
  lower_latin1 :
    forall s, Forall (fun c => (c < 0x100)%N) s -> lower s = latin1_lower s;
  lower_encodes :
    forall s bs, Utf8.encode s = Ok bs -> exists bs', Utf8.encode (lower s) = Ok bs';
  lower_raises :
    forall s e, Utf8.encode s = Raise e -> Utf8.encode (lower s) = Raise e
}.

(** Equality of two [str] up to the case of the letters A to Z, said
    without lowering: the same length, and at each place the same
    character or the two cases of one letter. *)
Definition same_letter (a b : N) : Prop :=
  a = b \/
  ((0x41 <= a <= 0x5A)%N /\ b = (a + 0x20)%N) \/
  ((0x41 <= b <= 0x5A)%N /\ a = (b + 0x20)%N).

Definition caseless_eq (s t : pystr) : Prop := Forall2 same_letter s t.

End Python.

(** ** peewee: models, instances, the store *)

Module Peewee.

(** The two model classes of the file. *)
Inductive model := MUserOptions | MUser.

Inductive field_type :=
| AutoField
| TextField
| BooleanField
| IntegerField
| FloatField
| ForeignKeyField (rel_model : model).

(** A field as declared in a class body. [field_default] is [VNone] when the
    declaration gives none. *)
Record field := Field {
  field_model : model;
  field_name : string;
  field_type_of : field_type;
  field_null : bool;
  field_default : value
}.

(** Two fields are the same one when they belong to the same model and
    carry the same name. *)
Definition same_field (f g : field) : bool :=
  bool_decide (field_name f = field_name g) &&
  match field_model f, field_model g with
  | MUserOptions, MUserOptions | MUser, MUser => true
  | _, _ => false
  end.

(** The primary key that peewee adds to a model that declares none. *)
Definition id_field (m : model) : field := Field m "id" AutoField false VNone.

(** [model._meta.sorted_fields]: the primary key, then the fields in the
    order of the class body (lines 20-35 and 64-67). *)
Definition sorted_fields (m : model) : list field :=
  match m with
  | MUserOptions =>
    [ id_field MUserOptions;
      Field MUserOptions "fow_colour" TextField true (VStr (Utf8.str "#000"));
      Field MUserOptions "grid_colour" TextField true (VStr (Utf8.str "#000"));
      Field MUserOptions "ruler_colour" TextField true (VStr (Utf8.str "#F00"));
      Field MUserOptions "invert_alt" BooleanField true (VBool false);
      Field MUserOptions "disable_scroll_to_zoom" BooleanField true (VBool false);
      Field MUserOptions "use_high_dpi" BooleanField true (VBool false);
      Field MUserOptions "grid_size" IntegerField true (VInt 50);
      Field MUserOptions "use_as_physical_board" BooleanField true (VBool false);
      Field MUserOptions "mini_size" FloatField true (VInt 1);
      Field MUserOptions "ppi" IntegerField true (VInt 96);
      Field MUserOptions "initiative_camera_lock" BooleanField true (VBool false);
      Field MUserOptions "initiative_vision_lock" BooleanField true (VBool false);
      Field MUserOptions "initiative_effect_visibility" TextField true
        (VStr (Utf8.str "active")) ]
  | MUser =>
    [ id_field MUser;
      Field MUser "name" TextField false VNone;
      Field MUser "email" TextField true VNone;
      Field MUser "password_hash" TextField false VNone;
      Field MUser "default_options" (ForeignKeyField MUserOptions) false VNone ]
  end.

Definition is_field (m : model) (k : string) : bool :=
  existsb (fun f => bool_decide (field_name f = k)) (sorted_fields m).

Definition is_none (v : value) : bool :=
  match v with VNone => true | _ => false end.

(** An instance: the [__data__] dictionary and the [_dirty] set. The
    class of the instance is part of its type. *)
Record instance (m : model) := Instance {
  __data__ : gmap string value;
  _dirty : gset string
}.
Arguments Instance {m} _ _.
Arguments __data__ {m} _.
Arguments _dirty {m} _.

(** A row of a table: column to value; an absent column is NULL. *)
Definition row := gmap string value.

(** The world outside the instances: the two tables, in rowid order, and
    the state of the operating system's random source. *)
Record world := World {
  user_options_table : list row;
  user_table : list row;
  entropy : N
}.

Definition table (m : model) (w : world) : list row :=
  match m with
  | MUserOptions => user_options_table w
  | MUser => user_table w
  end.

Definition set_table (m : model) (rows : list row) (w : world) : world :=
  match m with
  | MUserOptions => World rows (user_table w) (entropy w)
  | MUser => World (user_options_table w) rows (entropy w)
  end.

(** [dict.get(k)] on [__data__]: what reading the attribute gives. *)
Definition data_get (d : gmap string value) (k : string) : value :=
  default VNone (d !! k).

(** [instance.<k>], through the field accessor. *)
Definition field_value {m} (self : instance m) (k : string) : value :=
  data_get (__data__ self) k.

(** [instance.<k> = v], through the field accessor: the value is stored
    and the field marked dirty. A keyword that names no field becomes a
    plain attribute and leaves [__data__] alone. *)
Definition set_field {m} (k : string) (v : value) (self : instance m)
  : instance m :=
  if is_field m k
  then Instance (<[k := v]> (__data__ self)) ({[k]} ∪ _dirty self)
  else self.

(** [model._meta.get_default_dict()]: the fields that declare a default
    other than None. *)
Definition get_default_dict (m : model) : gmap string value :=
  list_to_map
    (omap (fun f => if is_none (field_default f) then None
                    else Some (field_name f, field_default f))
          (sorted_fields m)).

(** [Model.__init__] with keyword arguments: the defaults, then every keyword
    assigned in turn. *)
Definition init (m : model) (kwargs : list (string * value)) : instance m :=
  foldl (fun self kv => set_field kv.1 kv.2 self)
        (Instance (get_default_dict m) (dom (get_default_dict m)))
        kwargs.

Definition row_id (r : row) : Z :=
  match r !! "id" with
  | Some (VInt z) => z
  | _ => 0
  end.

(** The rowid that the engine gives the next row: one more than the
    largest in the table. *)
Definition next_id (rows : list row) : Z :=
  foldr (fun r acc => Z.max (row_id r) acc) 0%Z rows + 1.

(** A NOT NULL column that the row leaves NULL. *)
Definition violates_not_null (m : model) (r : row) : bool :=
  existsb (fun f => negb (field_null f) && is_none (data_get r (field_name f)))
          (sorted_fields m).

(** [Field.adapt] of the field classes: an integer field, the primary key
    and a foreign key take [int(v)], a float field [float(v)], and both
    keep the value as it is when that raises ValueError; a boolean field
    takes [bool(v)]; a text field keeps a [str] and takes [str(v)] of
    anything else. *)
Definition adapt (py : Python.builtins) (ft : field_type) (v : value)
  : outcome value :=
  match ft with
  | AutoField | IntegerField | ForeignKeyField _ =>
    match Python.to_int py v with
    | Ok z => Ok (VInt z)
    | Raise ValueError => Ok v
    | Raise e => Raise e
    end
  | FloatField =>
    match Python.to_float py v with
    | Ok f => Ok (VFloat f)
    | Raise ValueError => Ok v
    | Raise e => Raise e
    end
  | BooleanField => Ok (VBool (Python.truth v))
  | TextField => Ok (VStr (Python.format_value (Python.float_str py) v))
  end.

(** [Field.db_value]: None goes through, anything else is adapted. *)
Definition db_value (py : Python.builtins) (ft : field_type) (v : value)
  : outcome value :=
  if is_none v then Ok VNone else adapt py ft v.

(** The values of an INSERT, field by field in the order of the model;
    the first conversion that raises ends it. *)
Fixpoint convert (py : Python.builtins) (fs : list field)
    (field_dict : gmap string value) : outcome (list (string * value)) :=
  match fs with
  | [] => Ok []
  | f :: fs' =>
    match field_dict !! field_name f with
    | None => convert py fs' field_dict
    | Some v =>
      match db_value py (field_type_of f) v with
      | Raise e => Raise e
      | Ok v' =>
        match convert py fs' field_dict with
        | Raise e => Raise e
        | Ok columns => Ok ((field_name f, v') :: columns)
        end
      end
    end
  end.

(** What the driver does with a parameter: a [str] is sent as utf-8, an
    integer must fit in 64 bits. *)
Definition bind (v : value) : outcome unit :=
  match v with
  | VStr s =>
    match Utf8.encode s with
    | Ok _ => Ok tt
    | Raise e => Raise e
    end
  | VInt z =>
    if ((- 2 ^ 63 <=? z) && (z <? 2 ^ 63))%Z then Ok tt
    else Raise OverflowError
  | _ => Ok tt
  end.

Fixpoint bind_all (vs : list value) : outcome unit :=
  match vs with
  | [] => Ok tt
  | v :: vs' =>
    match bind v with
    | Ok _ => bind_all vs'
    | Raise e => Raise e
    end
  end.

(** What the engine keeps of a bound value: a NaN becomes NULL. *)
Definition stored (v : value) : value :=
  match v with
  | VFloat S754_nan => VNone
  | _ => v
  end.

(** [Model.save(force_insert=True)]: one INSERT of a copy of [__data__],
    in which a column that [__data__] lacks has its declared default and
    a primary key that is None is left to the engine. The values are
    converted by their fields, then bound by the driver; either can
    raise, and then nothing is written. The engine assigns the next
    rowid where the key is NULL and refuses a key that is taken or is no
    integer, and a NULL in a NOT NULL column. The row holds, column by
    column, the value that went in; what the column affinity of the
    engine makes of a text in a numeric column is not followed, nor are
    its foreign-key checks: the file creates no [User] row. The instance
    takes the rowid, and afterwards nothing is dirty. *)
Definition save_force_insert (py : Python.builtins) {m} (self : instance m)
  : Eff world (instance m) :=
  fun w =>
    let rows := table m w in
    let with_defaults := __data__ self ∪ get_default_dict m in
    let field_dict :=
      if is_none (field_value self "id") then delete "id" with_defaults
      else with_defaults in
    match convert py (sorted_fields m) field_dict with
    | Raise e => (Raise e, w)
    | Ok columns =>
      match bind_all columns.*2 with
      | Raise e => (Raise e, w)
      | Ok _ =>
        let r : gmap string value := stored <$> list_to_map columns in
        let pk :=
          match data_get r "id" with
          | VNone => Some (next_id rows)
          | VInt z => if existsb (fun r' => (row_id r' =? z)%Z) rows
                      then None else Some z
          | _ => None
          end in
        match pk with
        | None => (Raise IntegrityError, w)
        | Some z =>
          let r' := <["id" := VInt z]> r in
          if violates_not_null m r' then (Raise IntegrityError, w)
          else (Ok (Instance (<["id" := VInt z]> (__data__ self)) ∅),
                set_table m (rows ++ [r']) w)
        end
      end
    end.

(** [Model.create] with keyword arguments: build the instance, insert it,
    return it. *)
Definition create (py : Python.builtins) (m : model)
    (kwargs : list (string * value)) : Eff world (instance m) :=
  save_force_insert py (init m kwargs).

(** The instance that a SELECT builds from a row: every column of the
    model, nothing dirty. *)
Definition instance_of_row (m : model) (r : row) : instance m :=
  Instance
    (list_to_map
       (map (fun f => (field_name f, data_get r (field_name f)))
            (sorted_fields m)))
    ∅.

(** [LOWER] of the engine, which for this application is SQLite: the
    letters A to Z are lowered, every other character is left as it
    is. *)
Definition fn_Lower (s : pystr) : pystr :=
  map (fun c => if ((0x41 <=? c) && (c <=? 0x5A))%N then (c + 0x20)%N else c) s.

(** The one kind of expression that the file builds:
    [fn.Lower(<column>) == <str>]. *)
Inductive expression :=
| Lower_eq (column : string) (rhs : pystr).

(** The parameters that the query of an expression binds. *)
Definition parameters (e : expression) : list value :=
  match e with
  | Lower_eq _ rhs => [VStr rhs]
  end.

(** Whether a row satisfies the expression; a NULL compares as unknown,
    which selects nothing. *)
Definition selects (e : expression) (r : row) : bool :=
  match e with
  | Lower_eq column rhs =>
    match data_get r column with
    | VStr s => bool_decide (fn_Lower s = rhs)
    | _ => false
    end
  end.

(** [Model.get_or_none(expr)]: the parameters are bound, which can
    raise; then the first row that the expression selects, or None: the
    absence of a row is not an exception. *)
Definition get_or_none (m : model) (e : expression)
  : Eff world (option (instance m)) :=
  fun w =>
    match bind_all (parameters e) with
    | Raise x => (Raise x, w)
    | Ok _ => (Ok (instance_of_row m <$> List.find (selects e) (table m w)), w)
    end.

(** [should_skip] of [model_to_dict], with [only] empty: the field is in
    [exclude]. *)
Definition should_skip (exclude : list field) (f : field) : bool :=
  existsb (same_field f) exclude.

(** [playhouse.shortcuts.model_to_dict(model, recurse, exclude=...)] with
    [recurse] and [backrefs] false, as both callers pass them: every
    field of the model that [exclude] does not list, with what
    [__data__.get] gives for it. *)
Definition model_to_dict {m} (self : instance m) (exclude : list field)
  : gmap string value :=
  foldl (fun data f =>
           if should_skip exclude f then data
           else <[field_name f := data_get (__data__ self) (field_name f)]> data)
        ∅ (sorted_fields m).

(** Whether [f] is called [k] and is not skipped: the test that decides
    if [k] is a key of the dictionary. *)
Definition kept (exclude : list field) (k : string) (f : field) : bool :=
  bool_decide (field_name f = k) && negb (should_skip exclude f).

(** A method: a computation over its receiver and the world. *)
Definition method (m : model) (A : Type) : Type := Eff (instance m * world) A.

Definition getattr {m} (k : string) : method m value :=
  fun st => (Ok (field_value st.1 k), st).

Definition setattr {m} (k : string) (v : value) : method m unit :=
  fun st => (Ok tt, (set_field k v st.1, st.2)).

Definition this {m} : method m (instance m) :=
  fun st => (Ok st.1, st).

(** A computation on the world alone, run inside a method. *)
Definition in_world {m A} (c : Eff world A) : method m A :=
  fun st => let (r, w) := c st.2 in (r, (st.1, w)).

End Peewee.

(** ** bcrypt *)

Module Bcrypt.

(** The three functions of the package that the model calls. [gensalt]
    reads the random source and advances it. *)
Record bcrypt_module := {
  gensalt : N -> pybytes * N;
  hashpw : pybytes -> pybytes -> outcome pybytes;
  checkpw : pybytes -> pybytes -> outcome bool
}.

Definition is_ascii (bs : pybytes) : Prop :=
  Forall (fun b => (Byte.to_N b < 0x80)%N) bs.

(** What the package promises: a hash is a string of ASCII characters,
    and a password checks against every hash made from it with a salt of
    [gensalt]. *)
Record contract (B : bcrypt_module) : Prop := {
  hashpw_ascii :
    forall pw salt h, hashpw B pw salt = Ok h -> is_ascii h;
  checkpw_hashpw :
    forall pw e h, hashpw B pw (gensalt B e).1 = Ok h -> checkpw B pw h = Ok true
}.

(** The idealised form of collision resistance: no second password
    checks against a hash. *)
Definition collision_free (B : bcrypt_module) : Prop :=
  forall p1 p2 e h,
    hashpw B p1 (gensalt B e).1 = Ok h -> checkpw B p2 h = Ok true -> p1 = p2.

(** [gensalt] as a step of the world. *)
Definition draw_salt (B : bcrypt_module) : Eff Peewee.world pybytes :=
  fun w =>
    let (salt, e) := gensalt B (Peewee.entropy w) in
    (Ok salt,
     Peewee.World (Peewee.user_options_table w) (Peewee.user_table w) e).

End Bcrypt.

(** A small implementation of the interface, to run the methods on concrete
    inputs. Its strings have the shape of the package's (a 29-character
    prefix [$2b$12$] plus 22 salt characters, then a digest), and a
    malformed salt is refused with ValueError as the package does; the
    digest spells the password out, which makes the implementation free of
    collisions. *)
Module ToyBcrypt.

Definition bytes_of (s : string) : pybytes :=
  map byte_of_ascii (list_ascii_of_string s).

Definition alphabet : pybytes :=
  bytes_of "./ABCDEFGHIJKLMNOPQRSTUVWXYZabcdefghijklmnopqrstuvwxyz0123456789".

Definition digit64 (n : N) : byte :=
  nth (N.to_nat (n mod 64)) alphabet x00.

Fixpoint salt_chars (k : nat) (e : N) : pybytes :=
  match k with
  | O => []
  | S k' => digit64 e :: salt_chars k' (e / 64)
  end.

Definition gensalt (e : N) : pybytes * N :=
  (bytes_of "$2b$12$" ++ salt_chars 22 e, (e + 1)%N).

Definition is_salt_char (b : byte) : bool :=
  existsb (Byte.eqb b) alphabet.

Definition is_digit (b : byte) : bool :=
  ((0x30 <=? Byte.to_N b) && (Byte.to_N b <=? 0x39))%N.

(** The 29 characters that carry version, cost and salt. *)
Definition well_formed (p : pybytes) : bool :=
  match p with
  | d0 :: v :: minor :: d1 :: c1 :: c2 :: d2 :: salt =>
    Byte.eqb d0 "$" && Byte.eqb v "2" &&
    (Byte.eqb minor "a" || Byte.eqb minor "b") &&
    Byte.eqb d1 "$" && is_digit c1 && is_digit c2 && Byte.eqb d2 "$" &&
    Nat.eqb (length salt) 22 && forallb is_salt_char salt
  | _ => false
  end.

(** The digest: two letters A..P for each byte of the password. *)
Definition digest (pw : pybytes) : pybytes :=
  flat_map (fun b => [Utf8.byte_of (0x41 + Byte.to_N b / 16);
                      Utf8.byte_of (0x41 + Byte.to_N b mod 16)]) pw.

Definition hashpw (pw salt : pybytes) : outcome pybytes :=
  if well_formed (take 29 salt) then Ok (take 29 salt ++ digest pw)
  else Raise ValueError.

Definition bytes_eqb (a b : pybytes) : bool :=
  bool_decide (map Byte.to_N a = map Byte.to_N b).

Definition checkpw (pw hashed : pybytes) : outcome bool :=
  match hashpw pw hashed with
  | Ok r => Ok (bytes_eqb r hashed)
  | Raise e => Raise e
  end.

Definition toy : Bcrypt.bcrypt_module :=
  {| Bcrypt.gensalt := gensalt;
     Bcrypt.hashpw := hashpw;
     Bcrypt.checkpw := checkpw |}.

End ToyBcrypt.

(** ** class UserOptions (lines 19-60) *)

Module UserOptions.
Import Peewee.

(** [UserOptions.id] *)
Definition id : field := id_field MUserOptions.

(** The names of the thirteen preference fields (lines 20-35). *)
Definition preference_fields : list string :=
  [ "fow_colour"; "grid_colour"; "ruler_colour"; "invert_alt";
    "disable_scroll_to_zoom"; "use_high_dpi"; "grid_size";
    "use_as_physical_board"; "mini_size"; "ppi"; "initiative_camera_lock";
    "initiative_vision_lock"; "initiative_effect_visibility" ].

(** [create_empty] (lines 37-51): [UserOptions.create] with the eleven
    keywords that the call passes, each None. *)
Definition create_empty (py : Python.builtins)
  : Eff world (instance MUserOptions) :=
  create py MUserOptions
    [ ("fow_colour", VNone);
      ("grid_colour", VNone);
      ("ruler_colour", VNone);
      ("invert_alt", VNone);
      ("disable_scroll_to_zoom", VNone);
      ("use_high_dpi", VNone);
      ("grid_size", VNone);
      ("use_as_physical_board", VNone);
      ("initiative_camera_lock", VNone);
      ("initiative_vision_lock", VNone);
      ("initiative_effect_visibility", VNone) ].

(** [as_dict] (lines 53-60): the items of [model_to_dict] without the id
    whose value is not None. *)
Definition as_dict : method MUserOptions (gmap string value) :=
  self ← this;
  mret (filter (fun kv => is_none kv.2 = false)
               (model_to_dict self [id])).

End UserOptions.

(** ** class User (lines 63-91) *)

Module User.
Import Peewee.

Definition id : field := id_field MUser.
Definition password_hash : field :=
  Field MUser "password_hash" TextField false VNone.
Definition default_options : field :=
  Field MUser "default_options" (ForeignKeyField MUserOptions) false VNone.

Section WithLibraries.

(** The bcrypt package. *)
Variable bcrypt : Bcrypt.bcrypt_module.

(** [str.lower] of Python. *)
Variable lower : pystr -> pystr.

(** [set_password] (lines 72-74). The arguments of [hashpw] are
    evaluated left to right: the encoding, then the salt. *)
Definition set_password (pw : pystr) : method MUser unit :=
  pw_bytes ← lift (Utf8.encode pw);
  salt ← in_world (Bcrypt.draw_salt bcrypt);
  pwhash ← lift (Bcrypt.hashpw bcrypt pw_bytes salt);
  decoded ← lift (Utf8.decode pwhash);
  setattr "password_hash" (VStr decoded).

(** [check_password] (lines 76-80). A value that is neither None nor a
    [str] has no [encode]. *)
Definition check_password (pw : pystr) : method MUser bool :=
  stored ← getattr "password_hash";
  match stored with
  | VNone => mret false
  | VStr s =>
    expected_hash ← lift (Utf8.encode s);
    pw_bytes ← lift (Utf8.encode pw);
    lift (Bcrypt.checkpw bcrypt pw_bytes expected_hash)
  | _ => raise AttributeError
  end.

(** [as_dict] (lines 82-87) *)
Definition as_dict : method MUser (gmap string value) :=
  self ← this;
  mret (model_to_dict self [id; password_hash; default_options]).

(** [by_name] (lines 89-91): the argument is lowered by Python, the
    column by the engine. *)
Definition by_name (name : pystr) : Eff world (option (instance MUser)) :=
  get_or_none MUser (Lower_eq "name" (lower name)).

End WithLibraries.

(** [__repr__] (lines 69-70) *)
Definition __repr__ (float_str : spec_float -> pystr) : method MUser pystr :=
  name ← getattr "name";
  mret (Utf8.str "<User " ++ Python.format_value float_str name
        ++ Utf8.str ">").

End User.

(** ** Concrete states *)

Module Examples.
Import Peewee.

(** An empty store. *)
Definition w0 : world := World [] [] 7.

(** [User(name="alice")]: an account in memory on which no password has
    been set, and which has no email. *)
Definition alice : instance MUser :=
  init MUser [ ("name", VStr (Utf8.str "alice")) ].

(** A row of the user table for the name "alice", and a store that holds
    it. *)
Definition alice_row : row :=
  list_to_map [ ("id", VInt 1); ("name", VStr (Utf8.str "alice"));
                ("password_hash", VStr (Utf8.str "$2b$12$saltsaltsaltsaltsaltsaGIGF"));
                ("default_options", VInt 1) ].

Definition w1 : world := World [] [alice_row] 7.

(** The same with the name written "Alice". *)
Definition Alice_row : row :=
  <["name" := VStr (Utf8.str "Alice")]> alice_row.

Definition w2 : world := World [] [Alice_row] 7.


(** An option record with two overrides and the other fields None. *)
Definition some_options : instance MUserOptions :=
  Instance (list_to_map [ ("id", VInt 1); ("grid_size", VInt 60);
                          ("invert_alt", VBool true); ("ppi", VNone) ]) ∅.

(** A lone surrogate, as [json.loads] gives for a backslash-u escape
    of D800. *)
Definition lone_surrogate : pystr := [0xD800%N].

(** The name Ecole with an acute accent on the capital E (U+00C9), a row
    for it and a store that holds the row. *)
Definition Ecole : pystr := [0xC9; 0x63; 0x6F; 0x6C; 0x65]%N.

Definition Ecole_row : row :=
  list_to_map [ ("id", VInt 1); ("name", VStr Ecole);
                ("password_hash", VStr (Utf8.str "$2b$12$saltsaltsaltsaltsaltsaGIGF"));
                ("default_options", VInt 1) ].

Definition w3 : world := World [] [Ecole_row] 7.

(** The three conversions, as far as examples need them: none is
    called. *)
Definition py0 : Python.builtins :=
  {| Python.float_str := fun _ => [];
     Python.int_of_str := fun _ => None;
     Python.float_of_str := fun _ => None |}.

End Examples.

(** * Facts *)

(** ** The codec *)

Ltac Zify.zify_post_hook ::= Z.to_euclidean_division_equations.

Module Utf8Facts.
Import Utf8.
Local Open Scope N_scope.

Lemma land_shiftl_low a b n : b < 2 ^ n -> N.land (N.shiftl a n) b = 0.
Proof.
  intros Hb. apply N.bits_inj. intros i. rewrite N.land_spec, N.bits_0.
  destruct (N.lt_ge_cases i n) as [Hi|Hi].
  - rewrite N.shiftl_spec_low by assumption. reflexivity.
  - assert (N.testbit b i = false) as ->; [|apply Bool.andb_false_r].
    destruct (N.eq_dec b 0) as [->|Hne]; [apply N.bits_0|].
    apply N.bits_above_log2. apply N.log2_lt_pow2; [lia|].
    eapply N.lt_le_trans; [exact Hb|]. apply N.pow_le_mono_r; lia.
Qed.

Lemma lor_shiftl_add a b n : b < 2 ^ n -> N.lor (N.shiftl a n) b = a * 2 ^ n + b.
Proof.
  intros Hb. rewrite <- N.lxor_lor, <- N.add_nocarry_lxor by (apply land_shiftl_low; assumption).
  rewrite N.shiftl_mul_pow2. reflexivity.
Qed.

Lemma to_N_byte_of n : n < 256 -> Byte.to_N (byte_of n) = n.
Proof.
  intros Hn. unfold byte_of. destruct (Byte.of_N n) as [b|] eqn:E.
  - simpl. apply Byte.to_of_N. exact E.
  - apply Byte.of_N_None_iff in E. lia.
Qed.

Lemma to_N_lt b : Byte.to_N b < 256.
Proof. pose proof (Byte.to_N_bounded b). lia. Qed.

Lemma byte_of_to_N b : byte_of (Byte.to_N b) = b.
Proof. unfold byte_of. rewrite Byte.of_to_N. reflexivity. Qed.

Lemma lor_disjoint v x n : v mod 2 ^ n = 0 -> x < 2 ^ n -> N.lor v x = v + x.
Proof.
  intros Hv Hx.
  assert (E : v = N.shiftl (v / 2 ^ n) n).
  { rewrite N.shiftl_mul_pow2. pose proof (N.div_mod' v (2 ^ n)). lia. }
  rewrite E at 1. rewrite lor_shiftl_add by exact Hx.
  rewrite <- N.shiftl_mul_pow2, <- E. reflexivity.
Qed.

Lemma cont_byte x : Byte.to_N (byte_of (N.lor 0x80 (N.land x 0x3F))) = 128 + x mod 64.
Proof.
  change 0x3F with (N.ones 6). rewrite N.land_ones. change (2 ^ 6) with 64.
  rewrite (lor_disjoint 0x80 _ 6) by (reflexivity || (change (2 ^ 6) with 64; lia)).
  apply to_N_byte_of. lia.
Qed.

Lemma lead_byte tag n x :
  tag mod 2 ^ n = 0 -> x < 2 ^ n -> tag + x < 256 ->
  Byte.to_N (byte_of (N.lor tag x)) = tag + x.
Proof. intros Ht Hx Hb. rewrite (lor_disjoint tag x n) by assumption. apply to_N_byte_of. exact Hb. Qed.

Lemma low6_val b m : Byte.to_N b = 128 + m -> m < 64 -> low6 b = m.
Proof.
  intros E Hm. unfold low6. rewrite E. change 0x3F with (N.ones 6). rewrite N.land_ones.
  change (2 ^ 6) with 64. lia.
Qed.
Lemma cont_val b m : Byte.to_N b = 128 + m -> m < 64 -> cont b = true.
Proof. intros E Hm. unfold cont. rewrite E. apply andb_true_intro. split; [apply N.leb_le|apply N.ltb_lt]; lia. Qed.

Ltac split_cmp :=
  repeat match goal with
    | |- context [N.ltb ?a ?b] => destruct (N.ltb_spec a b); try lia
    | |- context [N.leb ?a ?b] => destruct (N.leb_spec a b); try lia
    | |- context [N.eqb ?a ?b] => destruct (N.eqb_spec a b); try lia
    end;
  cbn [andb orb negb].

Ltac pow2 :=
  change (2 ^ 3) with 8 in *; change (2 ^ 4) with 16 in *;
  change (2 ^ 5) with 32 in *; change (2 ^ 6) with 64 in *;
  change (2 ^ 12) with 4096 in *; change (2 ^ 18) with 262144 in *.

Lemma lead_payload b t q n :
  Byte.to_N b = t + q -> t mod 2 ^ n = 0 -> q < 2 ^ n ->
  N.land (Byte.to_N b) (N.ones n) = q.
Proof.
  intros E Ht Hq. rewrite E, N.land_ones.
  rewrite <- N.Div0.add_mod_idemp_l, Ht, N.add_0_l. apply N.mod_small. exact Hq.
Qed.

Ltac lead_bits E :=
  change 0x1F with (N.ones 5); change 0x0F with (N.ones 4);
  change 0x07 with (N.ones 3);
  first [ rewrite (lead_payload _ _ _ 5 E) by (reflexivity || (pow2; lia))
        | rewrite (lead_payload _ _ _ 4 E) by (reflexivity || (pow2; lia))
        | rewrite (lead_payload _ _ _ 3 E) by (reflexivity || (pow2; lia)) ].

Lemma decode_1 b0 r :
  (Byte.to_N b0 <? 0x80) = true ->
  decode (b0 :: r) = push (Byte.to_N b0) (decode r).
Proof. intros H. cbn [decode]. rewrite H. reflexivity. Qed.

Lemma decode_2 b0 b1 r :
  (Byte.to_N b0 <? 0x80) = false -> (Byte.to_N b0 <? 0xC2) = false ->
  (Byte.to_N b0 <? 0xE0) = true -> cont b1 = true ->
  decode (b0 :: b1 :: r) =
  push (N.lor (N.shiftl (N.land (Byte.to_N b0) 0x1F) 6) (low6 b1)) (decode r).
Proof. intros H1 H2 H3 H4. cbn [decode]. rewrite H1, H2, H3, H4. reflexivity. Qed.

Lemma decode_3 b0 b1 b2 r :
  (Byte.to_N b0 <? 0x80) = false -> (Byte.to_N b0 <? 0xC2) = false ->
  (Byte.to_N b0 <? 0xE0) = false -> (Byte.to_N b0 <? 0xF0) = true ->
  (if Byte.to_N b0 =? 0xE0 then in_range 0xA0 0xBF b1
   else if Byte.to_N b0 =? 0xED then in_range 0x80 0x9F b1
   else cont b1) && cont b2 = true ->
  decode (b0 :: b1 :: b2 :: r) =
  push (N.lor (N.shiftl (N.land (Byte.to_N b0) 0x0F) 12)
         (N.lor (N.shiftl (low6 b1) 6) (low6 b2))) (decode r).
Proof.
  intros H1 H2 H3 H4 H5. cbn [decode]. rewrite H1, H2, H3, H4, H5. reflexivity.
Qed.

Lemma decode_4 b0 b1 b2 b3 r :
  (Byte.to_N b0 <? 0x80) = false -> (Byte.to_N b0 <? 0xC2) = false ->
  (Byte.to_N b0 <? 0xE0) = false -> (Byte.to_N b0 <? 0xF0) = false ->
  (Byte.to_N b0 <? 0xF5) = true ->
  (if Byte.to_N b0 =? 0xF0 then in_range 0x90 0xBF b1
   else if Byte.to_N b0 =? 0xF4 then in_range 0x80 0x8F b1
   else cont b1) && cont b2 && cont b3 = true ->
  decode (b0 :: b1 :: b2 :: b3 :: r) =
  push (N.lor (N.shiftl (N.land (Byte.to_N b0) 0x07) 18)
         (N.lor (N.shiftl (low6 b1) 12)
           (N.lor (N.shiftl (low6 b2) 6) (low6 b3)))) (decode r).
Proof.
  intros H1 H2 H3 H4 H5 H6. cbn [decode]. rewrite H1, H2, H3, H4, H5, H6.
  reflexivity.
Qed.

Ltac cmp_goal :=
  first [ apply N.ltb_lt; lia | apply N.ltb_ge; lia
        | split_cmp; reflexivity ].

Lemma decode_encode_char c cs r :
  encode_char c = Some cs -> decode (cs ++ r) = push c (decode r).
Proof.
  unfold encode_char.
  destruct (N.ltb_spec c 0x80) as [H1|H1].
  { intros [= <-]. cbn [app]. rewrite decode_1; rewrite to_N_byte_of by lia.
    - reflexivity.
    - cmp_goal. }
  destruct (N.ltb_spec c 0x800) as [H2|H2].
  { intros [= <-]. cbn [app].
    set (b0 := byte_of _). set (b1 := byte_of _).
    assert (E0 : Byte.to_N b0 = 192 + c / 64).
    { subst b0. rewrite N.shiftr_div_pow2. pow2.
      apply (lead_byte _ 5); [reflexivity|pow2; lia|lia]. }
    assert (E1 : Byte.to_N b1 = 128 + c mod 64) by apply cont_byte.
    rewrite decode_2; unfold cont; rewrite ?E0, ?E1; try cmp_goal.
    rewrite (low6_val b1 _ E1) by lia. rewrite <- E0. lead_bits E0.
    rewrite lor_shiftl_add by (pow2; lia). pow2. f_equal. lia. }
  destruct (N.ltb_spec c 0x10000) as [H3|H3].
  { destruct (N.leb_spec 0xD800 c) as [H4|H4], (N.leb_spec c 0xDFFF) as [H5|H5];
      cbn [andb]; try discriminate.
    all: intros [= <-]; cbn [app];
      set (b0 := byte_of _); set (b1 := byte_of _); set (b2 := byte_of _).
    all: assert (E0 : Byte.to_N b0 = 224 + c / 4096)
      by (subst b0; rewrite N.shiftr_div_pow2; pow2;
          apply (lead_byte _ 4); [reflexivity|pow2; lia|lia]).
    all: assert (E1 : Byte.to_N b1 = 128 + (c / 64) mod 64)
      by (subst b1; rewrite cont_byte, N.shiftr_div_pow2; reflexivity).
    all: assert (E2 : Byte.to_N b2 = 128 + c mod 64) by apply cont_byte.
    all: rewrite decode_3; unfold cont, in_range; rewrite ?E0, ?E1, ?E2;
      try cmp_goal.
    all: rewrite (low6_val b1 _ E1), (low6_val b2 _ E2) by lia;
      rewrite <- E0; lead_bits E0.
    all: rewrite (lor_shiftl_add _ _ 6) by (pow2; lia);
      rewrite (lor_shiftl_add _ _ 12) by (pow2; lia); pow2; f_equal; lia. }
  destruct (N.ltb_spec c 0x110000) as [H4|H4]; [|discriminate].
  intros [= <-]; cbn [app].
  set (b0 := byte_of _); set (b1 := byte_of _); set (b2 := byte_of _);
    set (b3 := byte_of _).
  assert (E0 : Byte.to_N b0 = 240 + c / 262144)
    by (subst b0; rewrite N.shiftr_div_pow2; pow2;
        apply (lead_byte _ 3); [reflexivity|pow2; lia|lia]).
  assert (E1 : Byte.to_N b1 = 128 + (c / 4096) mod 64)
    by (subst b1; rewrite cont_byte, N.shiftr_div_pow2; reflexivity).
  assert (E2 : Byte.to_N b2 = 128 + (c / 64) mod 64)
    by (subst b2; rewrite cont_byte, N.shiftr_div_pow2; reflexivity).
  assert (E3 : Byte.to_N b3 = 128 + c mod 64) by apply cont_byte.
  rewrite decode_4; unfold cont, in_range; rewrite ?E0, ?E1, ?E2, ?E3;
    try cmp_goal.
  rewrite (low6_val b1 _ E1), (low6_val b2 _ E2), (low6_val b3 _ E3) by lia.
  rewrite <- E0; lead_bits E0.
  rewrite (lor_shiftl_add _ _ 6) by (pow2; lia);
    rewrite (lor_shiftl_add _ _ 12) by (pow2; lia);
    rewrite (lor_shiftl_add _ _ 18) by (pow2; lia); pow2; f_equal; lia.
Qed.

Lemma decode_encode s bs : encode s = Ok bs -> decode bs = Ok s.
Proof.
  revert bs. induction s as [|c s IH]; intros bs; cbn [encode].
  - intros [= <-]. reflexivity.
  - destruct (encode_char c) as [cs|] eqn:Ec; [|discriminate].
    destruct (encode s) as [t|] eqn:Es; [|discriminate].
    intros [= <-]. rewrite (decode_encode_char c cs t Ec), (IH t eq_refl). reflexivity.
Qed.

Lemma encode_inj s1 s2 bs : encode s1 = Ok bs -> encode s2 = Ok bs -> s1 = s2.
Proof.
  intros H1 H2. apply decode_encode in H1, H2. congruence.
Qed.

End Utf8Facts.


(** Bytes below 128 decode to themselves and encode back. *)
Module AsciiFacts.
Import Utf8 Utf8Facts.
Local Open Scope N_scope.

Lemma decode_ascii h :
  Bcrypt.is_ascii h -> decode h = Ok (map Byte.to_N h).
Proof.
  induction 1 as [|b h Hb _ IH]; [reflexivity|].
  rewrite decode_1 by (apply N.ltb_lt; exact Hb).
  rewrite IH. reflexivity.
Qed.

Lemma encode_ascii h :
  Bcrypt.is_ascii h -> encode (map Byte.to_N h) = Ok h.
Proof.
  induction 1 as [|b h Hb _ IH]; [reflexivity|].
  cbn [map encode]. unfold encode_char.
  destruct (N.ltb_spec (Byte.to_N b) 0x80) as [_|Hge]; [|lia].
  rewrite IH, byte_of_to_N. reflexivity.
Qed.

End AsciiFacts.

(** ** model_to_dict *)

Module PeeweeFacts.
Import Peewee.

Lemma model_to_dict_fold {m} (self : instance m) exclude k fs
    (acc : gmap string value) :
  foldl (fun data f =>
           if should_skip exclude f then data
           else <[field_name f := data_get (__data__ self) (field_name f)]> data)
        acc fs !! k =
  if existsb (kept exclude k) fs then Some (field_value self k) else acc !! k.
Proof.
  revert acc. induction fs as [|f fs IH]; intros acc; [reflexivity|].
  cbn [foldl existsb]. rewrite IH.
  destruct (existsb (kept exclude k) fs); [rewrite orb_true_r; reflexivity|].
  rewrite orb_false_r. unfold kept.
  destruct (should_skip exclude f); cbn [negb].
  - rewrite andb_false_r. reflexivity.
  - rewrite andb_true_r. case_bool_decide as Hk.
    + subst k. rewrite lookup_insert_eq. reflexivity.
    + rewrite lookup_insert_ne by exact Hk. reflexivity.
Qed.

Lemma model_to_dict_lookup {m} (self : instance m) exclude k :
  model_to_dict self exclude !! k =
  if existsb (kept exclude k) (sorted_fields m)
  then Some (field_value self k) else None.
Proof. unfold model_to_dict. rewrite model_to_dict_fold. reflexivity. Qed.

End PeeweeFacts.

(** ** The small bcrypt keeps the contract *)

Module ToyFacts.
Import ToyBcrypt Utf8Facts.
Local Open Scope N_scope.

Lemma salt_char_ascii b : is_salt_char b = true -> Byte.to_N b < 0x80.
Proof.
  destruct b; intros H; vm_compute in H; first [discriminate H | reflexivity].
Qed.

Lemma byte_eqb_ascii b c :
  Byte.eqb b c = true -> Byte.to_N c < 0x80 -> Byte.to_N b < 0x80.
Proof. intros H%Byte.byte_dec_bl. subst b. tauto. Qed.

Lemma well_formed_length p : well_formed p = true -> length p = 29%nat.
Proof.
  destruct p as [|d0 [|v [|minor [|d1 [|c1 [|c2 [|d2 salt]]]]]]];
    try discriminate.
  unfold well_formed. rewrite !andb_true_iff, Nat.eqb_eq.
  intros [[_ H] _]. cbn [length]. rewrite H. reflexivity.
Qed.

Lemma well_formed_ascii p : well_formed p = true -> Bcrypt.is_ascii p.
Proof.
  destruct p as [|d0 [|v [|minor [|d1 [|c1 [|c2 [|d2 salt]]]]]]];
    try discriminate.
  unfold well_formed, is_digit. rewrite !andb_true_iff, orb_true_iff.
  intros [[[[[[[[H0 Hv] Hm] H1] [_ Hc1]] [_ Hc2]] H2] _] Hs].
  apply N.leb_le in Hc1, Hc2.
  repeat apply Forall_cons_2.
  - exact (byte_eqb_ascii _ _ H0 eq_refl).
  - exact (byte_eqb_ascii _ _ Hv eq_refl).
  - destruct Hm as [Hm|Hm]; exact (byte_eqb_ascii _ _ Hm eq_refl).
  - exact (byte_eqb_ascii _ _ H1 eq_refl).
  - lia.
  - lia.
  - exact (byte_eqb_ascii _ _ H2 eq_refl).
  - apply Forall_forall. intros b Hb. apply salt_char_ascii.
    rewrite forallb_forall in Hs. apply Hs. apply list_elem_of_In. exact Hb.
Qed.

Lemma digest_ascii pw : Bcrypt.is_ascii (digest pw).
Proof.
  induction pw as [|b pw IH]; [constructor|].
  pose proof (to_N_lt b).
  cbn [digest flat_map app]. repeat apply Forall_cons_2; [| |exact IH].
  - rewrite to_N_byte_of; lia.
  - rewrite to_N_byte_of; lia.
Qed.

Lemma digest_inj p1 p2 : digest p1 = digest p2 -> p1 = p2.
Proof.
  revert p2. induction p1 as [|a p1 IH]; intros [|b p2]; try discriminate;
    [reflexivity|].
  cbn [digest flat_map app]. intros [= Hh Hl Hr].
  pose proof (to_N_lt a). pose proof (to_N_lt b).
  apply (f_equal Byte.to_N) in Hh, Hl.
  rewrite !to_N_byte_of in Hh, Hl by lia.
  assert (Byte.to_N a = Byte.to_N b) as E by lia.
  f_equal; [|apply IH; exact Hr].
  rewrite <- (byte_of_to_N a), <- (byte_of_to_N b), E. reflexivity.
Qed.

Lemma to_N_map_inj (a b : pybytes) :
  map Byte.to_N a = map Byte.to_N b -> a = b.
Proof.
  revert b. induction a as [|x a IH]; intros [|y b]; try discriminate;
    [reflexivity|].
  cbn [map]. intros [= Hx Hr]. f_equal; [|apply IH; exact Hr].
  rewrite <- (byte_of_to_N x), <- (byte_of_to_N y), Hx. reflexivity.
Qed.

Lemma hashpw_inv pw salt h :
  hashpw pw salt = Ok h ->
  well_formed (take 29 salt) = true /\ h = take 29 salt ++ digest pw.
Proof.
  unfold hashpw. destruct (well_formed (take 29 salt)); [|discriminate].
  intros [= <-]. split; reflexivity.
Qed.

Lemma take_hash pw salt h :
  hashpw pw salt = Ok h -> take 29 h = take 29 salt.
Proof.
  intros [Hw ->]%hashpw_inv. apply well_formed_length in Hw.
  rewrite take_app_length'; [reflexivity|symmetry; exact Hw].
Qed.

Lemma toy_contract : Bcrypt.contract toy.
Proof.
  split.
  - cbn [Bcrypt.hashpw toy].
    intros pw salt h [Hw ->]%hashpw_inv. apply Forall_app. split.
    + apply well_formed_ascii. exact Hw.
    + apply digest_ascii.
  - intros pw e h. generalize (Bcrypt.gensalt toy e).1.
    cbn [Bcrypt.hashpw Bcrypt.checkpw toy]. intros salt H. unfold checkpw.
    pose proof (take_hash _ _ _ H) as Ht.
    destruct (hashpw_inv _ _ _ H) as [Hw Hh].
    unfold hashpw at 1. rewrite Ht, Hw, <- Hh.
    unfold bytes_eqb. rewrite bool_decide_eq_true_2; reflexivity.
Qed.

Lemma toy_collision_free : Bcrypt.collision_free toy.
Proof.
  intros p1 p2 e h. generalize (Bcrypt.gensalt toy e).1. intros salt H1 H2.
  cbn [Bcrypt.hashpw Bcrypt.checkpw toy] in H1, H2.
  pose proof (take_hash _ _ _ H1) as Ht.
  destruct (hashpw_inv _ _ _ H1) as [Hw Hh].
  unfold checkpw, hashpw in H2. rewrite Ht, Hw in H2.
  injection H2 as H2. apply bool_decide_eq_true_1, to_N_map_inj in H2.
  rewrite Hh in H2. apply app_inv_head in H2. symmetry. apply digest_inj. exact H2.
Qed.

End ToyFacts.

(** * The claims *)

Import Peewee PeeweeFacts.

Lemma existsb_kept_names exclude k fs :
  existsb (kept exclude k) fs = true <->
  k ∈ map field_name (List.filter (fun f => negb (should_skip exclude f)) fs).
Proof.
  induction fs as [|f fs IH]; cbn [existsb List.filter map].
  - rewrite elem_of_nil. split; [discriminate|tauto].
  - rewrite orb_true_iff, IH. unfold kept at 1.
    destruct (should_skip exclude f); cbn [negb map].
    + rewrite andb_false_r. split; [intros [?|?]; [discriminate|assumption]|tauto].
    + rewrite andb_true_r, elem_of_cons, bool_decide_eq_true.
      split; (intros [H|H]; [left; congruence|right; exact H]).
Qed.

Lemma UserOptions_kept k :
  existsb (kept [UserOptions.id] k) (sorted_fields MUserOptions) = true <->
  k ∈ UserOptions.preference_fields.
Proof. rewrite existsb_kept_names. reflexivity. Qed.

Lemma User_kept k :
  existsb (kept [User.id; User.password_hash; User.default_options] k)
          (sorted_fields MUser) = true <->
  k ∈ ["name"; "email"].
Proof. rewrite existsb_kept_names. reflexivity. Qed.

Lemma UserOptions_as_dict_run (self : instance MUserOptions) w :
  UserOptions.as_dict (self, w) =
  (Ok (filter (fun kv : string * value => is_none kv.2 = false)
              (model_to_dict self [UserOptions.id])),
   (self, w)).
Proof. reflexivity. Qed.

Lemma UserOptions_as_dict_lookup (self : instance MUserOptions) k v :
  filter (fun kv : string * value => is_none kv.2 = false)
         (model_to_dict self [UserOptions.id]) !! k = Some v <->
  k ∈ UserOptions.preference_fields /\ v = field_value self k /\ v <> VNone.
Proof.
  rewrite map_lookup_filter_Some, model_to_dict_lookup.
  rewrite <- UserOptions_kept. cbn [snd].
  destruct (existsb _ _).
  - split.
    + intros [[= <-] Hn]. repeat split. intros E. rewrite E in Hn. discriminate.
    + intros (_ & -> & Hn). split; [reflexivity|].
      destruct (field_value self k); try reflexivity. congruence.
  - split; [intros [? _]; discriminate|intros [? _]; discriminate].
Qed.

Ltac in_list :=
  match goal with
  | |- ?x ∈ ?l => apply (bool_decide_unpack (x ∈ l)); reflexivity
  end.

Lemma id_not_preference : "id" ∉ UserOptions.preference_fields.
Proof.
  apply (bool_decide_eq_false_1 ("id" ∈ UserOptions.preference_fields)).
  reflexivity.
Qed.

(** C7. For every option record, [as_dict] returns a dictionary that has a
    key exactly for the preference fields whose value is not None, each
    with the value of the field; it never has the key "id"; the record and
    the store are left as they were. *)
Theorem UserOptions_as_dict_spec (self : instance MUserOptions) (w : world) :
  exists d,
    UserOptions.as_dict (self, w) = (Ok d, (self, w)) /\
    (forall k, is_Some (d !! k) <->
       k ∈ UserOptions.preference_fields /\ field_value self k <> VNone) /\
    (forall k v, d !! k = Some v -> v = field_value self k) /\
    d !! "id" = None.
Proof.
  eexists. split; [apply UserOptions_as_dict_run|].
  split; [|split].
  - intros k. split.
    + intros [v Hv]. apply UserOptions_as_dict_lookup in Hv.
      destruct Hv as (Hk & -> & Hn). auto.
    + intros [Hk Hn]. exists (field_value self k).
      apply UserOptions_as_dict_lookup. auto.
  - intros k v Hv. apply UserOptions_as_dict_lookup in Hv. tauto.
  - destruct (_ !! "id") as [v|] eqn:E; [|reflexivity].
    apply UserOptions_as_dict_lookup in E. destruct E as [E _].
    destruct (id_not_preference E).
Qed.

(** Two overrides give two keys. *)
Lemma some_options_as_dict :
  (UserOptions.as_dict (Examples.some_options, Examples.w0)).1
  = Ok {[ "grid_size" := VInt 60; "invert_alt" := VBool true ]}.
Proof. vm_compute. reflexivity. Qed.

(** ** The methods of User, step by step *)

Lemma set_password_run B pw (self : instance MUser) w :
  User.set_password B pw (self, w) =
  match Utf8.encode pw with
  | Raise e => (Raise e, (self, w))
  | Ok pw_bytes =>
    let w' := World (user_options_table w) (user_table w)
                    (Bcrypt.gensalt B (entropy w)).2 in
    match Bcrypt.hashpw B pw_bytes (Bcrypt.gensalt B (entropy w)).1 with
    | Raise e => (Raise e, (self, w'))
    | Ok h =>
      match Utf8.decode h with
      | Raise e => (Raise e, (self, w'))
      | Ok s => (Ok tt, (set_field "password_hash" (VStr s) self, w'))
      end
    end
  end.
Proof.
  unfold User.set_password, mbind, Eff_bind, eff_bind, lift, in_world,
    Bcrypt.draw_salt, setattr.
  cbn [fst snd].
  destruct (Utf8.encode pw) as [pw_bytes|e]; [|reflexivity].
  destruct (Bcrypt.gensalt B (entropy w)) as [salt e'] eqn:Eg. cbn [fst snd].
  destruct (Bcrypt.hashpw B pw_bytes salt) as [h|e]; [|reflexivity].
  destruct (Utf8.decode h) as [s|e]; reflexivity.
Qed.

Lemma check_password_run B pw (self : instance MUser) w :
  User.check_password B pw (self, w) =
  (match field_value self "password_hash" with
   | VNone => Ok false
   | VStr s =>
     match Utf8.encode s with
     | Raise e => Raise e
     | Ok expected_hash =>
       match Utf8.encode pw with
       | Raise e => Raise e
       | Ok pw_bytes => Bcrypt.checkpw B pw_bytes expected_hash
       end
     end
   | _ => Raise AttributeError
   end, (self, w)).
Proof.
  unfold User.check_password, mbind, Eff_bind, eff_bind, lift, getattr, raise.
  cbn [fst snd].
  destruct (field_value self "password_hash") as [| | | |s]; try reflexivity.
  destruct (Utf8.encode s) as [expected_hash|e]; [|reflexivity].
  destruct (Utf8.encode pw) as [pw_bytes|e]; [|reflexivity].
  destruct (Bcrypt.checkpw B pw_bytes expected_hash); reflexivity.
Qed.

Lemma field_value_set_eq (self : instance MUser) v :
  field_value (set_field "password_hash" v self) "password_hash" = v.
Proof.
  unfold set_field, field_value, data_get.
  assert (is_field MUser "password_hash" = true) as -> by reflexivity.
  cbn [__data__]. rewrite lookup_insert_eq. reflexivity.
Qed.

Lemma set_field_other (self : instance MUser) v k :
  k <> "password_hash" ->
  __data__ (set_field "password_hash" v self) !! k = __data__ self !! k.
Proof.
  intros Hk. unfold set_field.
  assert (is_field MUser "password_hash" = true) as -> by reflexivity.
  cbn [__data__]. rewrite lookup_insert_ne by congruence. reflexivity.
Qed.

(** What [set_password] stores when the password encodes and the library
    accepts it. *)
Lemma set_password_ok B (HB : Bcrypt.contract B) pw self w pw_bytes h :
  Utf8.encode pw = Ok pw_bytes ->
  Bcrypt.hashpw B pw_bytes (Bcrypt.gensalt B (entropy w)).1 = Ok h ->
  User.set_password B pw (self, w) =
  (Ok tt, (set_field "password_hash" (VStr (map Byte.to_N h)) self,
           World (user_options_table w) (user_table w)
                 (Bcrypt.gensalt B (entropy w)).2)).
Proof.
  intros He Hh. rewrite set_password_run, He. cbn zeta. rewrite Hh.
  rewrite (AsciiFacts.decode_ascii h)
    by exact (Bcrypt.hashpw_ascii B HB _ _ _ Hh).
  reflexivity.
Qed.

(** C3, as amended. For every password that encodes to utf-8 and that
    [hashpw] accepts with the salt drawn, [set_password] returns and
    [check_password] of the same password then returns True, for every
    bcrypt that keeps the contract. *)
Theorem set_then_check_password B (HB : Bcrypt.contract B)
    pw (self : instance MUser) (w : world) pw_bytes h :
  Utf8.encode pw = Ok pw_bytes ->
  Bcrypt.hashpw B pw_bytes (Bcrypt.gensalt B (entropy w)).1 = Ok h ->
  exists st,
    User.set_password B pw (self, w) = (Ok tt, st) /\
    User.check_password B pw st = (Ok true, st).
Proof.
  intros He Hh. eexists. split; [exact (set_password_ok B HB _ _ _ _ _ He Hh)|].
  rewrite check_password_run, field_value_set_eq.
  rewrite (AsciiFacts.encode_ascii h)
    by exact (Bcrypt.hashpw_ascii B HB _ _ _ Hh).
  rewrite He, (Bcrypt.checkpw_hashpw B HB _ _ _ Hh). reflexivity.
Qed.


Lemma set_then_check_password_witness :
  exists st,
    User.set_password ToyBcrypt.toy (Utf8.str "hunter2")
      (Examples.alice, Examples.w0) = (Ok tt, st) /\
    User.check_password ToyBcrypt.toy (Utf8.str "hunter2") st = (Ok true, st).
Proof.
  eapply (set_then_check_password ToyBcrypt.toy ToyFacts.toy_contract);
    vm_compute; reflexivity.
Defined.

(** Whatever the bcrypt: a password that does not encode stops
    [set_password] before the library is called. *)
Lemma set_password_unencodable B pw e (self : instance MUser) w :
  Utf8.encode pw = Raise e ->
  User.set_password B pw (self, w) = (Raise e, (self, w)).
Proof. intros He. rewrite set_password_run, He. reflexivity. Qed.

(** C3, as stated, fails on a password that holds a lone surrogate:
    [set_password] raises UnicodeEncodeError and stores nothing, and
    [check_password] of the same string on the account, which still has no
    hash, returns False. The encoding fails before bcrypt is called. *)
Lemma set_password_lone_surrogate :
  User.set_password ToyBcrypt.toy Examples.lone_surrogate
    (Examples.alice, Examples.w0)
  = (Raise UnicodeEncodeError, (Examples.alice, Examples.w0)) /\
  User.check_password ToyBcrypt.toy Examples.lone_surrogate
    (Examples.alice, Examples.w0)
  = (Ok false, (Examples.alice, Examples.w0)).
Proof. split; reflexivity. Qed.

(** C4, as amended. For distinct passwords [p1] and [p2] that both encode
    to utf-8, when [hashpw] accepts [p1] and [checkpw] of [p2] against the
    hash returns, [set_password p1] followed by [check_password p2] returns
    False, for every bcrypt that keeps the contract and has no second
    password for a hash. *)
Theorem check_other_password B (HB : Bcrypt.contract B)
    (HC : Bcrypt.collision_free B)
    p1 p2 (self : instance MUser) (w : world) p1_bytes p2_bytes h b :
  p1 <> p2 ->
  Utf8.encode p1 = Ok p1_bytes ->
  Utf8.encode p2 = Ok p2_bytes ->
  Bcrypt.hashpw B p1_bytes (Bcrypt.gensalt B (entropy w)).1 = Ok h ->
  Bcrypt.checkpw B p2_bytes h = Ok b ->
  exists st,
    User.set_password B p1 (self, w) = (Ok tt, st) /\
    User.check_password B p2 st = (Ok false, st).
Proof.
  intros Hne H1 H2 Hh Hc. eexists.
  split; [exact (set_password_ok B HB _ _ _ _ _ H1 Hh)|].
  rewrite check_password_run, field_value_set_eq.
  rewrite (AsciiFacts.encode_ascii h)
    by exact (Bcrypt.hashpw_ascii B HB _ _ _ Hh).
  rewrite H2, Hc. destruct b; [|reflexivity].
  exfalso. apply Hne. pose proof (HC _ _ _ _ Hh Hc) as E. subst p2_bytes.
  exact (Utf8Facts.encode_inj _ _ _ H1 H2).
Qed.

Lemma check_other_password_witness :
  exists st,
    User.set_password ToyBcrypt.toy (Utf8.str "hunter2")
      (Examples.alice, Examples.w0) = (Ok tt, st) /\
    User.check_password ToyBcrypt.toy (Utf8.str "hunter3") st = (Ok false, st).
Proof.
  eapply (check_other_password ToyBcrypt.toy ToyFacts.toy_contract
            ToyFacts.toy_collision_free
            (Utf8.str "hunter2") (Utf8.str "hunter3") _ _ _ _ _ false).
  - discriminate.
  - vm_compute; reflexivity.
  - vm_compute; reflexivity.
  - vm_compute; reflexivity.
  - vm_compute; reflexivity.
Defined.

(** C4, as stated, fails when the second string holds a lone surrogate:
    after [set_password "hunter2"], [check_password] raises
    UnicodeEncodeError where the claim has it return False. *)
Lemma check_password_lone_surrogate :
  Utf8.str "hunter2" <> Examples.lone_surrogate /\
  (User.set_password ToyBcrypt.toy (Utf8.str "hunter2")
     (Examples.alice, Examples.w0)).1 = Ok tt /\
  (User.check_password ToyBcrypt.toy Examples.lone_surrogate
     (User.set_password ToyBcrypt.toy (Utf8.str "hunter2")
        (Examples.alice, Examples.w0)).2).1
  = Raise UnicodeEncodeError.
Proof. split; [discriminate|]. split; vm_compute; reflexivity. Qed.

(** C5. When the account's [password_hash] is None (unset or null),
    [check_password] returns False for every input, without encoding the
    input or calling bcrypt, and changes nothing. *)
Theorem check_password_no_hash B pw (self : instance MUser) (w : world) :
  field_value self "password_hash" = VNone ->
  User.check_password B pw (self, w) = (Ok false, (self, w)).
Proof. intros H. rewrite check_password_run, H. reflexivity. Qed.

Lemma check_password_no_hash_witness :
  User.check_password ToyBcrypt.toy (Utf8.str "hunter2")
    (Examples.alice, Examples.w0)
  = (Ok false, (Examples.alice, Examples.w0)).
Proof. apply check_password_no_hash. reflexivity. Defined.




(** ** as_dict of User *)

Lemma User_as_dict_run (self : instance MUser) w :
  User.as_dict (self, w) =
  (Ok (model_to_dict self [User.id; User.password_hash; User.default_options]),
   (self, w)).
Proof. reflexivity. Qed.

Lemma User_as_dict_lookup (self : instance MUser) k :
  model_to_dict self [User.id; User.password_hash; User.default_options] !! k
  = if bool_decide (k ∈ ["name"; "email"]) then Some (field_value self k)
    else None.
Proof.
  rewrite model_to_dict_lookup.
  destruct (existsb _ _) eqn:E; case_bool_decide as Hk; try reflexivity.
  - apply User_kept in E. contradiction.
  - apply User_kept in Hk. congruence.
Qed.

Lemma name_email_set k :
  k ∈ ["name"; "email"] <-> k ∈ ({[ "name"; "email" ]} : gset string).
Proof.
  rewrite !elem_of_cons, elem_of_nil, elem_of_union, !elem_of_singleton. tauto.
Qed.

(** C10. For every account, the keys of [as_dict] are exactly "name" and
    "email", each with the value of the field: "email" is a key, with
    None, also when no email is set. *)
Theorem User_as_dict_keys (self : instance MUser) (w : world) :
  exists d,
    User.as_dict (self, w) = (Ok d, (self, w)) /\
    dom d = {[ "name"; "email" ]} /\
    d !! "name" = Some (field_value self "name") /\
    d !! "email" = Some (field_value self "email").
Proof.
  eexists. split; [apply User_as_dict_run|]. split; [|split].
  - apply set_eq. intros k. rewrite elem_of_dom, User_as_dict_lookup.
    case_bool_decide as Hk.
    + split; [intros _|eauto]. apply name_email_set. exact Hk.
    + split; [intros [? [=]]|]. intros Hd. exfalso. apply Hk.
      apply name_email_set. exact Hd.
  - rewrite User_as_dict_lookup. reflexivity.
  - rewrite User_as_dict_lookup. reflexivity.
Qed.

(** An account without email: the key is there, with None. *)
Lemma alice_as_dict :
  (User.as_dict (Examples.alice, Examples.w0)).1
  = Ok {[ "name" := VStr (Utf8.str "alice"); "email" := VNone ]}.
Proof. vm_compute. reflexivity. Qed.

(** C2. For every account state, [as_dict] has no key "password_hash";
    this holds in the state that any [set_password] leaves; and the
    dictionary does not depend on the value of the field at all. *)
Theorem User_as_dict_hides_password_hash B pw v (self : instance MUser)
    (w : world) :
  (exists d, User.as_dict (self, w) = (Ok d, (self, w)) /\
             d !! "password_hash" = None) /\
  (exists d, User.as_dict (User.set_password B pw (self, w)).2
             = (Ok d, (User.set_password B pw (self, w)).2) /\
             d !! "password_hash" = None) /\
  (User.as_dict (set_field "password_hash" v self, w)).1
  = (User.as_dict (self, w)).1.
Proof.
  assert (G : forall st : instance MUser * world,
    exists d, User.as_dict st = (Ok d, st) /\ d !! "password_hash" = None).
  { intros [s u]. eexists. split; [apply User_as_dict_run|].
    rewrite User_as_dict_lookup. reflexivity. }
  split; [apply G|]. split; [apply G|].
  rewrite !User_as_dict_run. cbn [fst]. f_equal. apply map_eq. intros k.
  rewrite !User_as_dict_lookup. case_bool_decide as Hk; [|reflexivity].
  unfold field_value, data_get. rewrite set_field_other; [reflexivity|].
  intros ->. revert Hk.
  apply (bool_decide_eq_false_1 ("password_hash" ∈ ["name"; "email"])).
  reflexivity.
Qed.

(** C9. [set_password] leaves both tables as they were, leaves every
    key of [__data__] other than "password_hash" as it was, and marks at
    most that field dirty; when it returns, the field holds a string, and
    when it raises, the account is unchanged. *)
Theorem set_password_frame B pw (self : instance MUser) (w : world) :
  let r := (User.set_password B pw (self, w)).1 in
  let self' := (User.set_password B pw (self, w)).2.1 in
  let w' := (User.set_password B pw (self, w)).2.2 in
  user_table w' = user_table w /\
  user_options_table w' = user_options_table w /\
  (forall k, k <> "password_hash" -> __data__ self' !! k = __data__ self !! k) /\
  _dirty self' ⊆ {[ "password_hash" ]} ∪ _dirty self /\
  match r with
  | Ok _ => exists s, field_value self' "password_hash" = VStr s
  | Raise _ => self' = self
  end.
Proof.
  rewrite set_password_run.
  destruct (Utf8.encode pw) as [pw_bytes|e]; cbn zeta.
  2: { cbn [fst snd]. repeat split; try reflexivity. apply union_subseteq_r. }
  destruct (Bcrypt.hashpw B pw_bytes _) as [h|e].
  2: { cbn [fst snd user_table user_options_table].
       repeat split; try reflexivity. apply union_subseteq_r. }
  destruct (Utf8.decode h) as [s|e].
  2: { cbn [fst snd user_table user_options_table].
       repeat split; try reflexivity. apply union_subseteq_r. }
  cbn [fst snd user_table user_options_table]. repeat split.
  - intros k Hk. apply set_field_other. exact Hk.
  - unfold set_field.
    assert (is_field MUser "password_hash" = true) as -> by reflexivity.
    cbn [_dirty]. reflexivity.
  - exists s. apply field_value_set_eq.
Qed.

(** ** by_name *)

Lemma name_of_row r :
  field_value (instance_of_row MUser r) "name" = data_get r "name".
Proof.
  unfold field_value, instance_of_row. cbn [__data__ sorted_fields map].
  unfold data_get at 1. cbn [list_to_map foldr field_name id_field uncurry].
  rewrite lookup_insert_ne by discriminate. rewrite lookup_insert_eq.
  reflexivity.
Qed.

(** [encode] raises nothing but UnicodeEncodeError, and only on a
    character that has no encoding. *)
Lemma encode_Ok_iff s :
  (exists bs, Utf8.encode s = Ok bs) <->
  Forall (fun c => Utf8.encode_char c <> None) s.
Proof.
  induction s as [|c s IH]; cbn [Utf8.encode].
  - split; [constructor|eauto].
  - rewrite Forall_cons, <- IH. destruct (Utf8.encode_char c) as [bs|].
    + destruct (Utf8.encode s) as [r|e].
      * split; [intros _; split; [discriminate|eauto]|eauto].
      * split; [intros [? [=]]|intros [_ [? [=]]]].
    + split; [intros [? [=]]|intros [[] _]; reflexivity].
Qed.

Lemma encode_Raise s e : Utf8.encode s = Raise e -> e = UnicodeEncodeError.
Proof.
  induction s as [|c s IH]; cbn [Utf8.encode]; [discriminate|].
  destruct (Utf8.encode_char c); [|intros [= <-]; reflexivity].
  destruct (Utf8.encode s); [discriminate|]. intros [= <-]. apply IH. reflexivity.
Qed.

Lemma encode_char_None c :
  Utf8.encode_char c = None <->
  (0xD800 <= c <= 0xDFFF)%N \/ (0x110000 <= c)%N.
Proof.
  unfold Utf8.encode_char.
  destruct (N.ltb_spec c 0x80); [split; [discriminate|lia]|].
  destruct (N.ltb_spec c 0x800); [split; [discriminate|lia]|].
  destruct (N.ltb_spec c 0x10000).
  - destruct (N.leb_spec 0xD800 c), (N.leb_spec c 0xDFFF); cbn [andb];
      split; try discriminate; try lia; auto.
  - destruct (N.ltb_spec c 0x110000); split; try discriminate; try lia; auto.
Qed.

Lemma lower_latin1_char_cases c :
  Python.lower_latin1_char c = c \/
  ((c < 0xDF)%N /\ Python.lower_latin1_char c = (c + 0x20)%N).
Proof.
  unfold Python.lower_latin1_char.
  destruct (N.leb_spec 0x41 c), (N.leb_spec c 0x5A), (N.leb_spec 0xC0 c),
    (N.leb_spec c 0xDE), (N.eqb_spec c 0xD7); cbn [andb orb negb];
    first [left; reflexivity | right; split; [lia|reflexivity]].
Qed.

Lemma lower_latin1_char_encodes c :
  Utf8.encode_char (Python.lower_latin1_char c) = None <->
  Utf8.encode_char c = None.
Proof.
  rewrite !encode_char_None.
  destruct (lower_latin1_char_cases c) as [->|[Hc ->]]; [tauto|lia].
Qed.

Lemma latin1_lower_Ok s :
  (exists bs, Utf8.encode (Python.latin1_lower s) = Ok bs) <->
  (exists bs, Utf8.encode s = Ok bs).
Proof.
  rewrite !encode_Ok_iff. unfold Python.latin1_lower.
  rewrite Forall_fmap. apply Forall_proper; [|reflexivity].
  intros c. cbn. rewrite lower_latin1_char_encodes. reflexivity.
Qed.

(** The stand-in for [str.lower] keeps what is used of it. *)
Lemma latin1_lower_contract : Python.lower_contract Python.latin1_lower.
Proof.
  split.
  - reflexivity.
  - intros s bs H. apply latin1_lower_Ok. eauto.
  - intros s e H. pose proof (encode_Raise _ _ H) as ->.
    destruct (Utf8.encode (Python.latin1_lower s)) as [bs|e'] eqn:E.
    + assert (exists bs', Utf8.encode s = Ok bs') as [bs' Hs]
        by (apply latin1_lower_Ok; eauto).
      rewrite Hs in H. discriminate.
    + rewrite (encode_Raise _ _ E). reflexivity.
Qed.

(** The engine's [LOWER] makes equal exactly the strings that are equal
    up to the case of the letters A to Z. *)
Lemma fn_Lower_char a b :
  (if ((0x41 <=? a) && (a <=? 0x5A))%N then (a + 0x20)%N else a)
  = (if ((0x41 <=? b) && (b <=? 0x5A))%N then (b + 0x20)%N else b) <->
  Python.same_letter a b.
Proof.
  unfold Python.same_letter.
  destruct (N.leb_spec 0x41 a), (N.leb_spec a 0x5A), (N.leb_spec 0x41 b),
    (N.leb_spec b 0x5A); cbn [andb]; lia.
Qed.

Lemma fn_Lower_caseless s t :
  fn_Lower s = fn_Lower t <-> Python.caseless_eq s t.
Proof.
  unfold Python.caseless_eq, fn_Lower. revert t.
  induction s as [|a s IH]; intros [|b t]; cbn [map].
  - split; [constructor|reflexivity].
  - split; [discriminate|inversion 1].
  - split; [discriminate|inversion 1].
  - split.
    + intros [= Hab Hst]. constructor; [apply fn_Lower_char; exact Hab|].
      apply IH. exact Hst.
    + inversion 1 as [|? ? ? ? Hab Hst]; subst. f_equal.
      * apply fn_Lower_char. exact Hab.
      * apply IH. exact Hst.
Qed.

(** On ASCII text [str.lower] and the engine's [LOWER] are the same. *)
Lemma lower_ascii lower (HL : Python.lower_contract lower) name :
  Forall (fun c => (c < 0x80)%N) name -> lower name = fn_Lower name.
Proof.
  intros Ha. rewrite (Python.lower_latin1 lower HL).
  - unfold Python.latin1_lower, fn_Lower. apply map_ext_Forall.
    eapply Forall_impl; [exact Ha|]. cbn beta. intros c Hc.
    unfold Python.lower_latin1_char.
    destruct (N.leb_spec 0xC0 c); [lia|]. cbn [andb]. rewrite orb_false_r.
    reflexivity.
  - eapply Forall_impl; [exact Ha|]. cbn beta. intros c Hc. lia.
Qed.

Lemma ascii_encodes s :
  Forall (fun c => (c < 0x80)%N) s -> exists bs, Utf8.encode s = Ok bs.
Proof.
  intros Ha. apply encode_Ok_iff. eapply Forall_impl; [exact Ha|].
  cbn beta. intros c Hc. rewrite encode_char_None. lia.
Qed.

Lemma by_name_run lower name w :
  User.by_name lower name w =
  match Utf8.encode (lower name) with
  | Ok _ =>
    (Ok (instance_of_row MUser
           <$> List.find (selects (Lower_eq "name" (lower name)))
                         (user_table w)), w)
  | Raise e => (Raise e, w)
  end.
Proof.
  unfold User.by_name, get_or_none. cbn [parameters bind_all bind table].
  destruct (Utf8.encode (lower name)); reflexivity.
Qed.

(** C8, as amended. For every name of ASCII characters, and every
    [str.lower] that keeps the contract, [by_name] does not raise and
    leaves the store as it was. It returns the account of a row of the
    user table whose name equals the input up to the case of the letters
    A to Z, when there is such a row, and None when there is none. *)
Theorem by_name_spec (lower : pystr -> pystr)
    (HL : Python.lower_contract lower) name (w : world) :
  Forall (fun c => (c < 0x80)%N) name ->
  exists r,
    User.by_name lower name w = (Ok r, w) /\
    match r with
    | Some u =>
      exists row s, row ∈ user_table w /\ u = instance_of_row MUser row /\
        field_value u "name" = VStr s /\ Python.caseless_eq s name
    | None =>
      forall row s, row ∈ user_table w -> data_get row "name" = VStr s ->
        ~ Python.caseless_eq s name
    end.
Proof.
  intros Ha. rewrite by_name_run.
  pose proof (lower_ascii lower HL name Ha) as El.
  destruct (ascii_encodes (lower name)) as [bs ->].
  { rewrite El. unfold fn_Lower. apply Forall_fmap.
    eapply Forall_impl; [exact Ha|]. cbn. intros c Hc.
    destruct (N.leb_spec 0x41 c), (N.leb_spec c 0x5A); cbn [andb]; lia. }
  eexists. split; [reflexivity|].
  destruct (List.find _ _) as [row|] eqn:Ef; cbn [fmap option_fmap option_map].
  - apply find_some in Ef. destruct Ef as [Hin Hm]. cbn [selects] in Hm.
    destruct (data_get row "name") as [| | | |s] eqn:En; try discriminate.
    exists row, s. rewrite name_of_row, En.
    repeat split; [apply list_elem_of_In; exact Hin|].
    apply bool_decide_eq_true_1 in Hm. apply fn_Lower_caseless. congruence.
  - intros row s Hin En Hc.
    pose proof (find_none _ _ Ef row (proj1 (list_elem_of_In _ _) Hin)) as Hm.
    cbn [selects] in Hm. rewrite En in Hm.
    apply bool_decide_eq_false_1 in Hm. apply Hm.
    apply fn_Lower_caseless in Hc. congruence.
Qed.

Lemma by_name_spec_witness :
  exists r,
    User.by_name Python.latin1_lower (Utf8.str "Alice") Examples.w1
    = (Ok r, Examples.w1) /\
    match r with
    | Some u =>
      exists row s, row ∈ user_table Examples.w1 /\
        u = instance_of_row MUser row /\
        field_value u "name" = VStr s /\
        Python.caseless_eq s (Utf8.str "Alice")
    | None =>
      forall row s, row ∈ user_table Examples.w1 ->
        data_get row "name" = VStr s ->
        ~ Python.caseless_eq s (Utf8.str "Alice")
    end.
Proof.
  apply (by_name_spec Python.latin1_lower latin1_lower_contract).
  repeat constructor.
Defined.

(** Whatever [str.lower] is: a name that does not encode raises when the
    query binds it. *)
Lemma by_name_unencodable lower (HL : Python.lower_contract lower) name e w :
  Utf8.encode name = Raise e ->
  User.by_name lower name w = (Raise e, w).
Proof.
  intros H. rewrite by_name_run, (Python.lower_raises lower HL _ _ H).
  reflexivity.
Qed.

(** Whatever [str.lower] is: the account stored as Ecole with the accent
    is not found by its own name, which Python lowers and the engine
    does not. *)
Lemma by_name_Ecole lower (HL : Python.lower_contract lower) :
  (User.by_name lower Examples.Ecole Examples.w3).1 = Ok None.
Proof.
  rewrite by_name_run, (Python.lower_latin1 lower HL)
    by (repeat constructor).
  reflexivity.
Qed.

(** C8, as stated, fails twice: a name that holds a lone surrogate makes
    [by_name] raise UnicodeEncodeError, where the claim has it return
    not found; and the account whose stored name is Ecole with an accent
    on the capital is not found by that very name. *)
Lemma by_name_misses :
  User.by_name Python.latin1_lower Examples.lone_surrogate Examples.w0
  = (Raise UnicodeEncodeError, Examples.w0) /\
  data_get Examples.Ecole_row "name" = VStr Examples.Ecole /\
  In Examples.Ecole_row (user_table Examples.w3) /\
  (User.by_name Python.latin1_lower Examples.Ecole Examples.w3).1 = Ok None.
Proof.
  split; [reflexivity|]. split; [reflexivity|]. split; [left; reflexivity|].
  reflexivity.
Qed.

(** The lookups of the spec: "Alice" finds the account stored as
    "alice", "alice" the one stored as "Alice", and nobody is found in an
    empty table. *)
Lemma by_name_alice :
  (User.by_name Python.latin1_lower (Utf8.str "Alice")
     Examples.w1).1 = Ok (Some (instance_of_row MUser Examples.alice_row)) /\
  (User.by_name Python.latin1_lower (Utf8.str "alice")
     Examples.w2).1 = Ok (Some (instance_of_row MUser Examples.Alice_row)) /\
  (User.by_name Python.latin1_lower (Utf8.str "nobody")
     Examples.w0).1 = Ok None.
Proof. repeat split; vm_compute; reflexivity. Qed.

(** ** create_empty *)

(** What the INSERT of [create_empty] sends: the eleven None, and the two
    defaults as their columns take them. *)
Lemma create_empty_columns py :
  let self := init MUserOptions
    [ ("fow_colour", VNone); ("grid_colour", VNone); ("ruler_colour", VNone);
      ("invert_alt", VNone); ("disable_scroll_to_zoom", VNone);
      ("use_high_dpi", VNone); ("grid_size", VNone);
      ("use_as_physical_board", VNone); ("initiative_camera_lock", VNone);
      ("initiative_vision_lock", VNone);
      ("initiative_effect_visibility", VNone) ] in
  let columns :=
    [ ("fow_colour", VNone); ("grid_colour", VNone); ("ruler_colour", VNone);
      ("invert_alt", VNone); ("disable_scroll_to_zoom", VNone);
      ("use_high_dpi", VNone); ("grid_size", VNone);
      ("use_as_physical_board", VNone);
      ("mini_size", VFloat (S754_finite false 4503599627370496 (-52)));
      ("ppi", VInt 96); ("initiative_camera_lock", VNone);
      ("initiative_vision_lock", VNone);
      ("initiative_effect_visibility", VNone) ] in
  field_value self "id" = VNone /\
  convert py (sorted_fields MUserOptions)
    (delete "id" (__data__ self ∪ get_default_dict MUserOptions))
  = Ok columns /\
  bind_all columns.*2 = Ok tt.
Proof. cbn zeta. repeat split; vm_compute; reflexivity. Qed.

Lemma options_not_null (r : gmap string value) n :
  violates_not_null MUserOptions (<["id" := VInt n]> r) = false.
Proof.
  unfold violates_not_null.
  cbn [sorted_fields existsb field_null id_field negb andb field_name].
  unfold data_get at 1. rewrite lookup_insert_eq. reflexivity.
Qed.

(** The record that [create_empty] returns and the row that it writes. *)
Lemma create_empty_run py w :
  UserOptions.create_empty py w =
  let data := __data__ (init MUserOptions
    [ ("fow_colour", VNone); ("grid_colour", VNone); ("ruler_colour", VNone);
      ("invert_alt", VNone); ("disable_scroll_to_zoom", VNone);
      ("use_high_dpi", VNone); ("grid_size", VNone);
      ("use_as_physical_board", VNone); ("initiative_camera_lock", VNone);
      ("initiative_vision_lock", VNone);
      ("initiative_effect_visibility", VNone) ]) in
  let pk := VInt (next_id (user_options_table w)) in
  (Ok (Instance (<["id" := pk]> data) ∅),
   World (user_options_table w
            ++ [<["id" := pk]>
                  (<["mini_size" :=
                       VFloat (S754_finite false 4503599627370496 (-52))]>
                     data)])
         (user_table w) (entropy w)).
Proof.
  destruct (create_empty_columns py) as (Hid & Hc & Hb).
  unfold UserOptions.create_empty, create, save_force_insert.
  rewrite Hid. cbn [is_none]. rewrite Hc, Hb.
  set (r := stored <$> list_to_map _).
  assert (data_get r "id" = VNone) as -> by (vm_compute; reflexivity).
  cbn [table set_table]. cbn zeta. rewrite options_not_null.
  reflexivity.
Qed.

(** C1, on the code. [create_empty] passes eleven keywords and leaves
    out [mini_size] and [ppi]: in the record it returns the other eleven
    preference fields are None, but these two hold their declared
    defaults 1 and 96, and [as_dict] right after it has both keys. *)
Theorem create_empty_keeps_two_defaults (py : Python.builtins) (w : world) :
  exists self w',
    UserOptions.create_empty py w = (Ok self, w') /\
    field_value self "mini_size" = VInt 1 /\
    field_value self "ppi" = VInt 96 /\
    (forall k, k ∈ UserOptions.preference_fields -> k <> "mini_size" ->
       k <> "ppi" -> field_value self k = VNone) /\
    UserOptions.as_dict (self, w')
    = (Ok {[ "mini_size" := VInt 1; "ppi" := VInt 96 ]}, (self, w')).
Proof.
  rewrite create_empty_run. cbn zeta.
  set (data := __data__ (init MUserOptions _)).
  set (pk := VInt _).
  assert (V : forall k, k ∈ UserOptions.preference_fields ->
            field_value (Instance (m:=MUserOptions) (<["id" := pk]> data) ∅) k
            = if bool_decide (k = "mini_size") then VInt 1
              else if bool_decide (k = "ppi") then VInt 96 else VNone).
  { intros k Hk. unfold field_value, data_get. cbn [__data__].
    rewrite lookup_insert_ne
      by (intros <-; exact (id_not_preference Hk)).
    unfold UserOptions.preference_fields in Hk.
    rewrite !elem_of_cons, elem_of_nil in Hk.
    repeat (destruct Hk as [->|Hk]; [vm_compute; reflexivity|]).
    destruct Hk. }
  eexists _, _. split; [reflexivity|].
  split; [rewrite V by in_list; reflexivity|].
  split; [rewrite V by in_list; reflexivity|].
  split.
  - intros k Hk H1 H2. rewrite (V k Hk).
    rewrite !bool_decide_eq_false_2 by assumption. reflexivity.
  - rewrite UserOptions_as_dict_run. reflexivity.
Qed.

(** * Further properties *)

(** ** The codec, both ways *)

Module CodecRoundTrip.
Import Utf8 Utf8Facts.
Local Open Scope N_scope.

Lemma encode_char_2 q r :
  2 <= q < 32 -> r < 64 ->
  encode_char (q * 64 + r) = Some [byte_of (192 + q); byte_of (128 + r)].
Proof.
  intros Hq Hr. unfold encode_char. split_cmp.
  rewrite N.shiftr_div_pow2. change 0x3F with (N.ones 6). rewrite N.land_ones.
  pow2. rewrite (lor_disjoint 0xC0 _ 5), (lor_disjoint 0x80 _ 6)
    by (reflexivity || (pow2; lia)).
  do 3 f_equal; f_equal; lia.
Qed.

Lemma encode_char_3 q r1 r2 :
  q < 16 -> r1 < 64 -> r2 < 64 -> (q = 0 -> 32 <= r1) -> (q = 13 -> r1 < 32) ->
  encode_char (q * 4096 + (r1 * 64 + r2))
  = Some [byte_of (224 + q); byte_of (128 + r1); byte_of (128 + r2)].
Proof.
  intros Hq H1 H2 Hlo Hsur. unfold encode_char. split_cmp.
  all: rewrite !N.shiftr_div_pow2; change 0x3F with (N.ones 6);
    rewrite !N.land_ones; pow2;
    rewrite (lor_disjoint 0xE0 _ 4), !(lor_disjoint 0x80 _ 6)
      by (reflexivity || (pow2; lia)).
  all: do 2 f_equal; [f_equal; lia|]; f_equal; [f_equal; lia|]; do 2 f_equal; lia.
Qed.

Lemma encode_char_4 q r1 r2 r3 :
  q < 5 -> r1 < 64 -> r2 < 64 -> r3 < 64 ->
  (q = 0 -> 16 <= r1) -> (q = 4 -> r1 < 16) ->
  encode_char (q * 262144 + (r1 * 4096 + (r2 * 64 + r3)))
  = Some [byte_of (240 + q); byte_of (128 + r1); byte_of (128 + r2);
          byte_of (128 + r3)].
Proof.
  intros Hq H1 H2 H3 Hlo Hhi. unfold encode_char. split_cmp.
  rewrite !N.shiftr_div_pow2; change 0x3F with (N.ones 6);
    rewrite !N.land_ones; pow2;
    rewrite (lor_disjoint 0xF0 _ 3), !(lor_disjoint 0x80 _ 6)
      by (reflexivity || (pow2; lia)).
  do 2 f_equal; [f_equal; lia|]; f_equal; [f_equal; lia|];
    f_equal; [f_equal; lia|]; do 2 f_equal; lia.
Qed.


Lemma push_ok c r s : push c r = Ok s -> exists s', r = Ok s' /\ s = c :: s'.
Proof. destruct r as [s'|e]; [|discriminate]. intros [= <-]. eauto. Qed.

Lemma cont_range b : cont b = true -> 128 <= Byte.to_N b < 192.
Proof.
  unfold cont. rewrite andb_true_iff, N.leb_le, N.ltb_lt. tauto.
Qed.

Lemma in_range_spec lo hi b :
  in_range lo hi b = true -> lo <= Byte.to_N b <= hi.
Proof.
  unfold in_range. rewrite andb_true_iff, !N.leb_le. tauto.
Qed.

Lemma low6_cont b : 128 <= Byte.to_N b < 192 -> low6 b = Byte.to_N b - 128.
Proof.
  intros H. unfold low6. change 0x3F with (N.ones 6). rewrite N.land_ones.
  pow2. lia.
Qed.

Lemma byte_of_tag b t d : Byte.to_N b = t + d -> byte_of (t + d) = b.
Proof. intros <-. apply byte_of_to_N. Qed.

Lemma encode_cons c bs s r :
  encode_char c = Some bs -> encode s = Ok r -> encode (c :: s) = Ok (bs ++ r).
Proof. intros Hc Hs. cbn [encode]. rewrite Hc, Hs. reflexivity. Qed.

Lemma encode_decode bs s : decode bs = Ok s -> encode s = Ok bs.
Proof.
  remember (length bs) as n eqn:Hn. revert bs s Hn.
  induction n as [n IH] using lt_wf_ind. intros bs s Hn.
  destruct bs as [|b0 r0]; [intros [= <-]; reflexivity|].
  cbn [decode].
  pose proof (to_N_lt b0) as Hb0.
  destruct (N.ltb_spec (Byte.to_N b0) 0x80) as [H1|H1].
  { intros (s' & Hr & ->)%push_ok.
    apply (encode_cons _ [b0]).
    - unfold encode_char. split_cmp. rewrite byte_of_to_N. reflexivity.
    - apply (IH (length r0)); [subst n; cbn [length]; lia|reflexivity|exact Hr]. }
  destruct (N.ltb_spec (Byte.to_N b0) 0xC2) as [H2|H2]; [discriminate|].
  destruct (N.ltb_spec (Byte.to_N b0) 0xE0) as [H3|H3].
  { destruct r0 as [|b1 r1]; [discriminate|].
    destruct (cont b1) eqn:C1; [|discriminate].
    apply cont_range in C1.
    intros (s' & Hr & ->)%push_ok.
    rewrite (low6_cont b1 C1). change 0x1F with (N.ones 5).
    rewrite N.land_ones, lor_shiftl_add by (pow2; lia). pow2.
    apply (encode_cons _ [b0; b1]).
    - replace (Byte.to_N b0 mod 32) with (Byte.to_N b0 - 192) by lia.
      rewrite encode_char_2 by lia.
      rewrite (byte_of_tag b0), (byte_of_tag b1) by lia. reflexivity.
    - apply (IH (length r1)); [subst n; cbn [length]; lia|reflexivity|exact Hr]. }
  destruct (N.ltb_spec (Byte.to_N b0) 0xF0) as [H4|H4].
  { destruct r0 as [|b1 [|b2 r2]]; try discriminate.
    destruct (_ && cont b2) eqn:C; [|discriminate].
    apply andb_true_iff in C. destruct C as [C1 C2].
    apply cont_range in C2.
    assert (128 <= Byte.to_N b1 < 192 /\
            (Byte.to_N b0 = 224 -> 160 <= Byte.to_N b1) /\
            (Byte.to_N b0 = 237 -> Byte.to_N b1 < 160)) as (R1 & Rlo & Rhi).
    { destruct (N.eqb_spec (Byte.to_N b0) 0xE0);
        [apply in_range_spec in C1; lia|].
      destruct (N.eqb_spec (Byte.to_N b0) 0xED);
        [apply in_range_spec in C1; lia|].
      apply cont_range in C1. lia. }
    intros (s' & Hr & ->)%push_ok.
    rewrite (low6_cont b1 R1), (low6_cont b2 C2). change 0x0F with (N.ones 4).
    rewrite N.land_ones, (lor_shiftl_add _ _ 6) by (pow2; lia).
    rewrite (lor_shiftl_add _ _ 12) by (pow2; lia). pow2.
    apply (encode_cons _ [b0; b1; b2]).
    - replace (Byte.to_N b0 mod 16) with (Byte.to_N b0 - 224) by lia.
      rewrite encode_char_3 by lia.
      rewrite (byte_of_tag b0), (byte_of_tag b1), (byte_of_tag b2) by lia.
      reflexivity.
    - apply (IH (length r2)); [subst n; cbn [length]; lia|reflexivity|exact Hr]. }
  destruct (N.ltb_spec (Byte.to_N b0) 0xF5) as [H5|H5]; [|discriminate].
  destruct r0 as [|b1 [|b2 [|b3 r3]]]; try discriminate.
  destruct (_ && cont b2 && cont b3) eqn:C; [|discriminate].
  apply andb_true_iff in C. destruct C as [C C3].
  apply andb_true_iff in C. destruct C as [C1 C2].
  apply cont_range in C2, C3.
  assert (128 <= Byte.to_N b1 < 192 /\
          (Byte.to_N b0 = 240 -> 144 <= Byte.to_N b1) /\
          (Byte.to_N b0 = 244 -> Byte.to_N b1 < 144)) as (R1 & Rlo & Rhi).
  { destruct (N.eqb_spec (Byte.to_N b0) 0xF0);
      [apply in_range_spec in C1; lia|].
    destruct (N.eqb_spec (Byte.to_N b0) 0xF4);
      [apply in_range_spec in C1; lia|].
    apply cont_range in C1. lia. }
  intros (s' & Hr & ->)%push_ok.
  rewrite (low6_cont b1 R1), (low6_cont b2 C2), (low6_cont b3 C3).
  change 0x07 with (N.ones 3).
  rewrite N.land_ones, (lor_shiftl_add _ _ 6) by (pow2; lia).
  rewrite (lor_shiftl_add _ _ 12) by (pow2; lia).
  rewrite (lor_shiftl_add _ _ 18) by (pow2; lia). pow2.
  apply (encode_cons _ [b0; b1; b2; b3]).
  - replace (Byte.to_N b0 mod 8) with (Byte.to_N b0 - 240) by lia.
    rewrite encode_char_4 by lia.
    rewrite (byte_of_tag b0), (byte_of_tag b1), (byte_of_tag b2),
      (byte_of_tag b3) by lia.
    reflexivity.
  - apply (IH (length r3)); [subst n; cbn [length]; lia|reflexivity|exact Hr].
Qed.

End CodecRoundTrip.

Import Peewee PeeweeFacts.

(** X1. The two codecs are inverse to each other: a [str] encodes to the
    bytes [bs] exactly when [bs] decodes to that [str]. *)
Theorem utf8_round_trip (s : pystr) (bs : pybytes) :
  Utf8.encode s = Ok bs <-> Utf8.decode bs = Ok s.
Proof.
  split; [apply Utf8Facts.decode_encode|apply CodecRoundTrip.encode_decode].
Qed.


(** X3. Whatever the bcrypt: when [set_password] returns, the password
    encoded, [hashpw] returned a hash [h], the account holds a string that
    encodes back to exactly [h], and every later [check_password] of an
    encodable candidate is [checkpw] of the candidate against [h], with
    the state unchanged. *)
Theorem set_password_stores_hash B pw (self : instance MUser) (w : world) st :
  User.set_password B pw (self, w) = (Ok tt, st) ->
  exists pw_bytes h s,
    Utf8.encode pw = Ok pw_bytes /\
    Bcrypt.hashpw B pw_bytes (Bcrypt.gensalt B (entropy w)).1 = Ok h /\
    field_value st.1 "password_hash" = VStr s /\
    Utf8.encode s = Ok h /\
    forall p2 p2_bytes,
      Utf8.encode p2 = Ok p2_bytes ->
      User.check_password B p2 st = (Bcrypt.checkpw B p2_bytes h, st).
Proof.
  rewrite set_password_run.
  destruct (Utf8.encode pw) as [pw_bytes|e]; [|discriminate]. cbn zeta.
  destruct (Bcrypt.hashpw B pw_bytes _) as [h|e] eqn:Hh; [|discriminate].
  destruct (Utf8.decode h) as [s|e] eqn:Hd; [|discriminate].
  intros [= <-]. exists pw_bytes, h, s.
  apply CodecRoundTrip.encode_decode in Hd.
  repeat split; try assumption.
  - apply field_value_set_eq.
  - intros p2 p2_bytes H2. rewrite check_password_run.
    cbn [fst]. rewrite field_value_set_eq, Hd, H2. reflexivity.
Qed.

Lemma set_password_stores_hash_witness :
  exists pw_bytes h s,
    Utf8.encode (Utf8.str "hunter2") = Ok pw_bytes /\
    Bcrypt.hashpw ToyBcrypt.toy pw_bytes
      (Bcrypt.gensalt ToyBcrypt.toy (entropy Examples.w0)).1 = Ok h /\
    field_value
      (User.set_password ToyBcrypt.toy (Utf8.str "hunter2")
         (Examples.alice, Examples.w0)).2.1 "password_hash" = VStr s /\
    Utf8.encode s = Ok h /\
    forall p2 p2_bytes,
      Utf8.encode p2 = Ok p2_bytes ->
      User.check_password ToyBcrypt.toy p2
        (User.set_password ToyBcrypt.toy (Utf8.str "hunter2")
           (Examples.alice, Examples.w0)).2
      = (Bcrypt.checkpw ToyBcrypt.toy p2_bytes h,
         (User.set_password ToyBcrypt.toy (Utf8.str "hunter2")
            (Examples.alice, Examples.w0)).2).
Proof.
  apply (set_password_stores_hash ToyBcrypt.toy (Utf8.str "hunter2")
           Examples.alice Examples.w0).
  vm_compute. reflexivity.
Defined.

(** X4. Setting a second, different password replaces the first: after
    [set_password p1] and [set_password p2], [check_password p2] is True
    and [check_password p1] is False, for a bcrypt that keeps the contract
    and has no second password for a hash, when both passwords encode,
    [hashpw] accepts both and [checkpw] of [p1] returns. *)
Theorem set_password_twice B (HB : Bcrypt.contract B)
    (HC : Bcrypt.collision_free B)
    p1 p2 (self : instance MUser) (w : world) p1_bytes p2_bytes h1 h2 b :
  p1 <> p2 ->
  Utf8.encode p1 = Ok p1_bytes ->
  Utf8.encode p2 = Ok p2_bytes ->
  Bcrypt.hashpw B p1_bytes (Bcrypt.gensalt B (entropy w)).1 = Ok h1 ->
  Bcrypt.hashpw B p2_bytes
    (Bcrypt.gensalt B (Bcrypt.gensalt B (entropy w)).2).1 = Ok h2 ->
  Bcrypt.checkpw B p1_bytes h2 = Ok b ->
  exists st1 st2,
    User.set_password B p1 (self, w) = (Ok tt, st1) /\
    User.set_password B p2 st1 = (Ok tt, st2) /\
    User.check_password B p2 st2 = (Ok true, st2) /\
    User.check_password B p1 st2 = (Ok false, st2).
Proof.
  intros Hne E1 E2 H1 H2 Hc.
  eexists _, _. split; [exact (set_password_ok B HB _ _ _ _ _ E1 H1)|].
  split;
    [exact (set_password_ok B HB p2 _
              (World (user_options_table w) (user_table w)
                     (Bcrypt.gensalt B (entropy w)).2) _ _ E2 H2)|].
  pose proof (AsciiFacts.encode_ascii h2 (Bcrypt.hashpw_ascii B HB _ _ _ H2))
    as Eh.
  split.
  - rewrite check_password_run, field_value_set_eq, Eh, E2.
    rewrite (Bcrypt.checkpw_hashpw B HB _ _ _ H2). reflexivity.
  - rewrite check_password_run, field_value_set_eq, Eh, E1, Hc.
    destruct b; [|reflexivity].
    exfalso. apply Hne. pose proof (HC _ _ _ _ H2 Hc) as E. subst p2_bytes.
    exact (Utf8Facts.encode_inj _ _ _ E1 E2).
Qed.

Lemma set_password_twice_witness :
  exists st1 st2,
    User.set_password ToyBcrypt.toy (Utf8.str "hunter2")
      (Examples.alice, Examples.w0) = (Ok tt, st1) /\
    User.set_password ToyBcrypt.toy (Utf8.str "hunter3") st1 = (Ok tt, st2) /\
    User.check_password ToyBcrypt.toy (Utf8.str "hunter3") st2 = (Ok true, st2) /\
    User.check_password ToyBcrypt.toy (Utf8.str "hunter2") st2 = (Ok false, st2).
Proof.
  eapply (set_password_twice ToyBcrypt.toy ToyFacts.toy_contract
            ToyFacts.toy_collision_free
            (Utf8.str "hunter2") (Utf8.str "hunter3") _ _ _ _ _ _ false).
  - discriminate.
  - vm_compute; reflexivity.
  - vm_compute; reflexivity.
  - vm_compute; reflexivity.
  - vm_compute; reflexivity.
  - vm_compute; reflexivity.
Defined.

Lemma set_password_data B pw (self : instance MUser) w k :
  k <> "password_hash" ->
  __data__ (User.set_password B pw (self, w)).2.1 !! k = __data__ self !! k.
Proof.
  intros Hk. rewrite set_password_run.
  destruct (Utf8.encode pw) as [pw_bytes|e]; [|reflexivity]. cbn zeta.
  destruct (Bcrypt.hashpw B pw_bytes _) as [h|e]; [|reflexivity].
  destruct (Utf8.decode h) as [s|e]; [|reflexivity].
  cbn [fst snd]. apply set_field_other. exact Hk.
Qed.

(** X5. [set_password] does not change what [as_dict] returns, whether
    it returns or raises. *)
Theorem set_password_keeps_as_dict B pw (st : instance MUser * world) :
  (User.as_dict (User.set_password B pw st).2).1 = (User.as_dict st).1.
Proof.
  destruct st as [self w].
  destruct (User.set_password B pw (self, w)).2 as [self' w'] eqn:E.
  rewrite !User_as_dict_run. cbn [fst]. f_equal. apply map_eq. intros k.
  rewrite !User_as_dict_lookup. case_bool_decide as Hk; [|reflexivity].
  unfold field_value, data_get.
  replace self' with (User.set_password B pw (self, w)).2.1 by (rewrite E; reflexivity).
  rewrite set_password_data; [reflexivity|].
  intros ->. revert Hk.
  apply (bool_decide_eq_false_1 ("password_hash" ∈ ["name"; "email"])).
  reflexivity.
Qed.

(** X6. [__repr__] changes nothing and shows the name only: it is the
    same before and after any [set_password]; for a name that is a [str]
    it is that name between "<User " and ">", so that two accounts with
    the same text have the same name. *)
Theorem repr_shows_only_the_name float_str B pw (a b : instance MUser)
    (w w' : world) :
  (User.__repr__ float_str (a, w)).2 = (a, w) /\
  (User.__repr__ float_str (User.set_password B pw (a, w)).2).1
  = (User.__repr__ float_str (a, w)).1 /\
  (forall s, field_value a "name" = VStr s ->
     (User.__repr__ float_str (a, w)).1
     = Ok (Utf8.str "<User " ++ s ++ Utf8.str ">")) /\
  (forall s t, field_value a "name" = VStr s -> field_value b "name" = VStr t ->
     (User.__repr__ float_str (a, w)).1 = (User.__repr__ float_str (b, w')).1 ->
     s = t).
Proof.
  assert (R : forall (u : instance MUser) v,
    User.__repr__ float_str (u, v)
    = (Ok (Utf8.str "<User "
           ++ Python.format_value float_str (field_value u "name")
           ++ Utf8.str ">"), (u, v))) by reflexivity.
  split; [rewrite R; reflexivity|]. split; [|split].
  - destruct (User.set_password B pw (a, w)).2 as [a' w1] eqn:E.
    rewrite !R. cbn [fst]. do 3 f_equal. unfold field_value, data_get.
    replace a' with (User.set_password B pw (a, w)).2.1 by (rewrite E; reflexivity).
    rewrite set_password_data by discriminate. reflexivity.
  - intros s Hs. rewrite R, Hs. reflexivity.
  - intros s t Hs Ht. rewrite !R, Hs, Ht. cbn [fst Python.format_value].
    intros [= H]. apply app_inv_tail in H. exact H.
Qed.


(** ** The store *)

Lemma row_id_lt_next_id rows :
  Forall (fun r => (row_id r < next_id rows)%Z) rows.
Proof.
  unfold next_id. induction rows as [|r rows IH]; [constructor|].
  cbn [foldr]. constructor; [lia|].
  eapply Forall_impl; [exact IH|]. cbn beta. intros x Hx. lia.
Qed.


Lemma row_id_insert (d : gmap string value) n :
  row_id (<["id" := VInt n]> d) = n.
Proof. unfold row_id, row. rewrite lookup_insert_eq. reflexivity. Qed.

Lemma create_empty_data k :
  k ∈ UserOptions.preference_fields ->
  data_get (__data__ (init MUserOptions
    [ ("fow_colour", VNone); ("grid_colour", VNone); ("ruler_colour", VNone);
      ("invert_alt", VNone); ("disable_scroll_to_zoom", VNone);
      ("use_high_dpi", VNone); ("grid_size", VNone);
      ("use_as_physical_board", VNone); ("initiative_camera_lock", VNone);
      ("initiative_vision_lock", VNone);
      ("initiative_effect_visibility", VNone) ])) k
  = if bool_decide (k = "mini_size") then VInt 1
    else if bool_decide (k = "ppi") then VInt 96 else VNone.
Proof.
  unfold UserOptions.preference_fields.
  rewrite !elem_of_cons, elem_of_nil. intros Hk.
  repeat (destruct Hk as [->|Hk]; [vm_compute; reflexivity|]). destruct Hk.
Qed.

(** The store after [create_empty], shared by the two theorems below. *)
Lemma create_empty_store py w :
  exists self r,
    UserOptions.create_empty py w
    = (Ok self,
       World (user_options_table w ++ [r]) (user_table w) (entropy w)) /\
    field_value self "id" = VInt (row_id r) /\
    Forall (fun r' => (row_id r' < row_id r)%Z) (user_options_table w) /\
    _dirty self = ∅ /\
    forall k, k ∈ UserOptions.preference_fields ->
      data_get r k
      = if bool_decide (k = "mini_size")
        then VFloat (S754_finite false 4503599627370496 (-52))
        else if bool_decide (k = "ppi") then VInt 96 else VNone.
Proof.
  rewrite create_empty_run. cbn zeta.
  set (data := __data__ (init MUserOptions _)).
  eexists _, _. split; [reflexivity|].
  cbn [__data__ _dirty]. rewrite row_id_insert.
  split; [|split; [apply row_id_lt_next_id|split; [reflexivity|]]].
  - unfold field_value, data_get. cbn [__data__]. rewrite lookup_insert_eq.
    reflexivity.
  - intros k Hk. unfold data_get.
    rewrite lookup_insert_ne by (intros <-; exact (id_not_preference Hk)).
    pose proof (create_empty_data k Hk) as Hd. fold data in Hd.
    unfold data_get in Hd.
    case_bool_decide as H1; [subst k; rewrite lookup_insert_eq; reflexivity|].
    rewrite lookup_insert_ne by congruence. exact Hd.
Qed.


(** X8. [create_empty] keeps the ids of the option table distinct. *)
Theorem create_empty_keeps_ids_unique (py : Python.builtins) (w : world) :
  NoDup (row_id <$> user_options_table w) ->
  NoDup (row_id <$> user_options_table (UserOptions.create_empty py w).2).
Proof.
  intros Hu.
  destruct (create_empty_store py w) as (self & r & E & _ & Hlt & _).
  rewrite E. cbn [snd user_options_table]. rewrite fmap_app.
  apply NoDup_app. split; [exact Hu|]. split; [|apply NoDup_singleton].
  intros x Hx [=->]%list_elem_of_singleton.
  apply list_elem_of_fmap in Hx. destruct Hx as (r' & Hr' & Hin).
  rewrite Forall_forall in Hlt. specialize (Hlt r' Hin). lia.
Qed.

Lemma create_empty_keeps_ids_unique_witness :
  NoDup (row_id <$> user_options_table
           (UserOptions.create_empty Examples.py0
              (World [__data__ Examples.some_options] [] 7)).2).
Proof.
  apply create_empty_keeps_ids_unique. cbn [user_options_table fmap list_fmap].
  apply NoDup_singleton.
Defined.






(** ** Overrides *)

Lemma preference_is_field k :
  k ∈ UserOptions.preference_fields -> is_field MUserOptions k = true.
Proof.
  unfold UserOptions.preference_fields.
  rewrite !elem_of_cons, elem_of_nil. intros Hk.
  repeat (destruct Hk as [->|Hk]; [reflexivity|]). destruct Hk.
Qed.

(** X10. Assigning a preference field of an option record changes
    [as_dict] at that key only: a value other than None becomes the value
    of the key, and None removes the key. *)
Theorem as_dict_after_assignment (self : instance MUserOptions) (w : world)
    k v :
  k ∈ UserOptions.preference_fields ->
  exists d,
    UserOptions.as_dict (self, w) = (Ok d, (self, w)) /\
    UserOptions.as_dict (set_field k v self, w)
    = (Ok (if is_none v then delete k d else <[k := v]> d),
       (set_field k v self, w)).
Proof.
  intros Hk. eexists. split; [apply UserOptions_as_dict_run|].
  rewrite UserOptions_as_dict_run. f_equal. f_equal.
  apply map_eq. intros j. apply option_eq. intros x.
  rewrite UserOptions_as_dict_lookup.
  assert (F : field_value (set_field k v self) j
              = if decide (k = j) then v else field_value self j).
  { unfold set_field, field_value, data_get.
    rewrite (preference_is_field k Hk). cbn [__data__].
    destruct (decide (k = j)) as [->|Hne].
    - rewrite lookup_insert_eq. reflexivity.
    - rewrite lookup_insert_ne by exact Hne. reflexivity. }
  rewrite F. destruct (is_none v) eqn:Ev.
  - rewrite lookup_delete_Some, UserOptions_as_dict_lookup.
    destruct (decide (k = j)) as [->|Hne].
    + split; [intros (_ & -> & Hx)|intros [Hjj _]; destruct (Hjj eq_refl)].
      destruct v; try discriminate. congruence.
    + tauto.
  - rewrite lookup_insert_Some, UserOptions_as_dict_lookup.
    destruct (decide (k = j)) as [->|Hne].
    + split; [intros (_ & -> & _); auto|].
      intros [[_ <-]|[Hjj _]]; [|destruct (Hjj eq_refl)].
      repeat split; [exact Hk|]. intros ->. discriminate.
    + split; [intros H; right; tauto|intros [[? _]|[_ H]]; [contradiction|exact H]].
Qed.

Lemma as_dict_after_assignment_witness :
  exists d,
    UserOptions.as_dict (Examples.some_options, Examples.w0)
    = (Ok d, (Examples.some_options, Examples.w0)) /\
    UserOptions.as_dict (set_field "grid_size" VNone Examples.some_options,
                         Examples.w0)
    = (Ok (if is_none VNone then delete "grid_size" d
           else <["grid_size" := VNone]> d),
       (set_field "grid_size" VNone Examples.some_options, Examples.w0)).
Proof.
  apply as_dict_after_assignment.
  apply (bool_decide_unpack _). reflexivity.
Defined.

Lemma Ok_inj {A} (a b : A) : Ok a = Ok b -> a = b.
Proof. intros [= H]. exact H. Qed.

(** X11. [as_dict] of an option record is the empty dictionary exactly
    when every preference field is None. *)
Theorem as_dict_empty_iff (self : instance MUserOptions) (w : world) :
  (UserOptions.as_dict (self, w)).1 = Ok ∅ <->
  forall k, k ∈ UserOptions.preference_fields -> field_value self k = VNone.
Proof.
  rewrite UserOptions_as_dict_run. cbn [fst]. split.
  - intros E%Ok_inj k Hk.
    destruct (field_value self k) eqn:Ef; try reflexivity.
    all: exfalso;
      assert (H : filter (fun kv : string * value => is_none kv.2 = false)
                    (model_to_dict self [UserOptions.id]) !! k
                  = Some (field_value self k))
        by (apply UserOptions_as_dict_lookup; rewrite Ef;
            repeat split; [exact Hk|discriminate]);
      rewrite E, lookup_empty in H; discriminate.
  - intros H. f_equal. apply map_eq. intros k. rewrite lookup_empty.
    apply eq_None_not_Some. intros [v Hv].
    apply UserOptions_as_dict_lookup in Hv. destruct Hv as (Hk & -> & Hn).
    apply Hn, H, Hk.
Qed.


(** ** Lookups *)

Lemma row_field r k :
  k ∈ ["name"; "email"] ->
  field_value (instance_of_row MUser r) k = data_get r k.
Proof.
  rewrite !elem_of_cons, elem_of_nil.
  unfold field_value, instance_of_row. cbn [__data__ sorted_fields map].
  unfold data_get at 1. cbn [list_to_map foldr field_name id_field uncurry].
  intros [->|[->|[]]].
  - rewrite lookup_insert_ne by discriminate. rewrite lookup_insert_eq.
    reflexivity.
  - do 2 rewrite lookup_insert_ne by discriminate. rewrite lookup_insert_eq.
    reflexivity.
Qed.

(** X12. Two names of ASCII characters that differ only in the case of
    letters are the same query: [by_name] returns the same for both, for
    every [str.lower] that keeps the contract. *)
Theorem by_name_ignores_case_of_input (lower : pystr -> pystr)
    (HL : Python.lower_contract lower) n1 n2 (w : world) :
  Forall (fun c => (c < 0x80)%N) n1 ->
  Forall (fun c => (c < 0x80)%N) n2 ->
  Python.caseless_eq n1 n2 ->
  User.by_name lower n1 w = User.by_name lower n2 w.
Proof.
  intros H1 H2 Hc. unfold User.by_name.
  rewrite (lower_ascii lower HL n1 H1), (lower_ascii lower HL n2 H2).
  apply fn_Lower_caseless in Hc. rewrite Hc. reflexivity.
Qed.

Lemma by_name_ignores_case_of_input_witness :
  User.by_name Python.latin1_lower (Utf8.str "Alice") Examples.w1
  = User.by_name Python.latin1_lower (Utf8.str "aLICE") Examples.w1.
Proof.
  apply (by_name_ignores_case_of_input _ latin1_lower_contract).
  - repeat constructor.
  - repeat constructor.
  - apply fn_Lower_caseless. reflexivity.
Defined.

(** X13. The account that [by_name] returns serialises to the name and
    the email of a row of the user table whose lowered name is the lowered
    input, and to nothing else. *)
Theorem by_name_then_as_dict (lower : pystr -> pystr) name (w : world) u :
  User.by_name lower name w = (Ok (Some u), w) ->
  exists r s,
    r ∈ user_table w /\ data_get r "name" = VStr s /\
    fn_Lower s = lower name /\
    User.as_dict (u, w)
    = (Ok {[ "name" := VStr s; "email" := data_get r "email" ]}, (u, w)).
Proof.
  rewrite by_name_run.
  destruct (Utf8.encode (lower name)); [|discriminate].
  destruct (List.find _ _) as [r|] eqn:Ef; cbn [fmap option_fmap option_map];
    [|discriminate].
  intros [= <-]. apply find_some in Ef. destruct Ef as [Hin Hm].
  cbn [selects] in Hm.
  destruct (data_get r "name") as [| | | |s] eqn:En; try discriminate.
  apply bool_decide_eq_true_1 in Hm.
  exists r, s. split; [apply list_elem_of_In; exact Hin|].
  split; [exact En|]. split; [exact Hm|].
  rewrite User_as_dict_run. f_equal. f_equal.
  apply map_eq. intros k. rewrite User_as_dict_lookup.
  case_bool_decide as Hk.
  - rewrite (row_field r k Hk).
    rewrite !elem_of_cons, elem_of_nil in Hk. destruct Hk as [->|[->|[]]].
    + rewrite lookup_insert_eq, En. reflexivity.
    + rewrite lookup_insert_ne by discriminate.
      rewrite lookup_singleton_eq. reflexivity.
  - symmetry. apply lookup_insert_None. split.
    + apply lookup_singleton_None. intros <-. apply Hk. in_list.
    + intros <-. apply Hk. in_list.
Qed.

Lemma by_name_then_as_dict_witness :
  exists r s,
    r ∈ user_table Examples.w1 /\ data_get r "name" = VStr s /\
    fn_Lower s = Python.latin1_lower (Utf8.str "Alice") /\
    User.as_dict (instance_of_row MUser Examples.alice_row, Examples.w1)
    = (Ok {[ "name" := VStr s; "email" := data_get r "email" ]},
       (instance_of_row MUser Examples.alice_row, Examples.w1)).
Proof.
  apply (by_name_then_as_dict Python.latin1_lower (Utf8.str "Alice")).
  vm_compute. reflexivity.
Defined.

(** X14. [by_name] of a name that holds a surrogate raises
    UnicodeEncodeError when the query binds it, and leaves the store as it
    was, for every [str.lower] that keeps the contract. *)
Theorem by_name_raises_on_surrogates (lower : pystr -> pystr)
    (HL : Python.lower_contract lower) name (w : world) :
  Exists (fun c => (0xD800 <= c <= 0xDFFF)%N) name ->
  User.by_name lower name w = (Raise UnicodeEncodeError, w).
Proof.
  intros Hs. rewrite by_name_run.
  destruct (Utf8.encode name) as [bs|e] eqn:E.
  - exfalso. assert (exists bs, Utf8.encode name = Ok bs) as H by eauto.
    apply encode_Ok_iff in H. rewrite Forall_forall in H.
    apply Exists_exists in Hs. destruct Hs as (c & Hin & Hc).
    apply (H c Hin). apply encode_char_None. left. exact Hc.
  - pose proof (encode_Raise _ _ E) as ->.
    rewrite (Python.lower_raises lower HL _ _ E). reflexivity.
Qed.

Lemma by_name_raises_on_surrogates_witness :
  User.by_name Python.latin1_lower Examples.lone_surrogate Examples.w0
  = (Raise UnicodeEncodeError, Examples.w0).
Proof.
  apply (by_name_raises_on_surrogates _ latin1_lower_contract).
  apply Exists_cons_hd. split; [apply N.leb_le|apply N.leb_le]; reflexivity.
Defined.
